(** * auth.py: bearer-token extraction, JWT verification, permission check

    A shallow embedding of [src/auth.py] and the properties of its
    pipeline.  Python exceptions are an explicit error type, the calls
    the module makes into Flask, urllib, json and python-jose are fields
    of an environment record, and every function runs in a small
    error-and-trace monad whose trace records the calls that were made. *)

From Stdlib Require Import String Ascii List ZArith Bool.
Import ListNotations.
Set Warnings "-register-all".
Local Open Scope string_scope.
Local Open Scope list_scope.

(** ** Python strings

    The header value reaches the code through WSGI, where a header is a
    native string of ISO-8859-1 code points (PEP 3333), so a character
    is one of the 256 values of [ascii]. *)

Module PyStr.

(** [str.isspace] on the code points 0..255: TAB..CR, FS..US, SPACE,
    NEL (0x85) and NBSP (0xA0). *)
Definition isspace (c : ascii) : bool :=
  let n := nat_of_ascii c in
  (((9 <=? n) && (n <=? 13)) || ((28 <=? n) && (n <=? 32))
   || (n =? 133) || (n =? 160))%nat.

(** [str.lower] on one code point: A-Z and the Latin-1 capitals
    0xC0..0xDE (without the multiplication sign 0xD7) move up by 32. *)
Definition lower_char (c : ascii) : ascii :=
  let n := nat_of_ascii c in
  if (((65 <=? n) && (n <=? 90))
      || ((192 <=? n) && (n <=? 222) && negb (n =? 215)))%nat
  then ascii_of_nat (n + 32) else c.

Fixpoint lower (s : string) : string :=
  match s with
  | EmptyString => EmptyString
  | String c s' => String (lower_char c) (lower s')
  end.

(** [s.split()] with no separator: runs of whitespace separate the
    segments, leading and trailing whitespace yields no empty segment.
    [cur] is the segment being read. *)
Fixpoint split_from (cur : string) (s : string) : list string :=
  match s with
  | EmptyString => if String.eqb cur "" then [] else [cur]
  | String c s' =>
      if isspace c
      then (if String.eqb cur "" then split_from "" s'
            else cur :: split_from "" s')
      else split_from (cur ++ String c "")%string s'
  end.

Definition split (s : string) : list string := split_from "" s.

(** [needle in haystack] for two strings: substring test. *)
Definition contains (haystack needle : string) : bool :=
  match String.index 0 needle haystack with
  | Some _ => true
  | None => false
  end.

(** Truthiness of [request.headers.get(..., None)]: [None] and the
    empty string are false. *)
Definition truthy (o : option string) : bool :=
  match o with
  | None => false
  | Some s => negb (String.eqb s "")
  end.

Definition all_space (s : string) : bool :=
  forallb isspace (list_ascii_of_string s).

End PyStr.

(** ** JSON values as Python objects

    What [json.loads] and python-jose hand to the code.  An object is a
    [dict] in insertion order with distinct keys; numbers are the
    integers (non-integral numbers are outside the model). *)

Inductive json : Type :=
| JNull
| JBool (b : bool)
| JNum (z : Z)
| JStr (s : string)
| JArr (l : list json)
| JObj (d : list (string * json)).

Definition dict := list (string * json).

Fixpoint dict_get (d : dict) (k : string) : option json :=
  match d with
  | [] => None
  | (k', v) :: d' => if String.eqb k' k then Some v else dict_get d' k
  end.

(** [k in d] *)
Definition dict_has (d : dict) (k : string) : bool :=
  match dict_get d k with Some _ => true | None => false end.

(** Python's [==] on these values.  [True == 1] and [False == 0] hold;
    lists compare element by element, dicts by key. *)
Fixpoint py_eq (a b : json) {struct a} : bool :=
  match a, b with
  | JNull, JNull => true
  | JBool x, JBool y => Bool.eqb x y
  | JBool x, JNum z => Z.eqb (if x then 1 else 0) z
  | JNum z, JBool y => Z.eqb z (if y then 1 else 0)
  | JNum x, JNum y => Z.eqb x y
  | JStr s, JStr t => String.eqb s t
  | JArr l, JArr m =>
      (fix all2 (l : list json) (m : list json) {struct l} : bool :=
         match l, m with
         | [], [] => true
         | x :: l', y :: m' => py_eq x y && all2 l' m'
         | _, _ => false
         end) l m
  | JObj d, JObj e =>
      Nat.eqb (length d) (length e)
      && (fix sub (d : list (string * json)) {struct d} : bool :=
            match d with
            | [] => true
            | (k, v) :: d' =>
                match dict_get e k with
                | Some w => py_eq v w && sub d'
                | None => false
                end
            end) d
  | _, _ => false
  end.

(** ** Exceptions *)

(** The dictionary an [AuthError] carries as [error]. *)
Record error_dict : Type := mk_error
  { error : Z; code : string; description : string }.

Inductive exn : Type :=
| AuthError (e : error_dict) (status_code : Z)
| IndexError
| KeyError (key : string)
| TypeError
| JWTError
| ExpiredSignatureError
| JWTClaimsError
| URLError
| JSONDecodeError.

Definition is_AuthError (x : exn) : bool :=
  match x with AuthError _ _ => true | _ => false end.

(** ** The monad: an exception or a value, and the calls made so far *)

Inductive event : Type :=
| Call_get_token_auth_header
| Call_verify_decode_jwt (token : string)
| Call_check_permissions (permission : string) (payload : dict)
| Call_f (token : string)
| Net_urlopen (url : string).

Definition trace := list event.

Definition M (A : Type) : Type := trace -> (exn + A) * trace.

Definition ret {A} (a : A) : M A := fun t => (inr a, t).

Definition raise {A} (e : exn) : M A := fun t => (inl e, t).

Definition bind {A B} (c : M A) (k : A -> M B) : M B :=
  fun t =>
    match c t with
    | (inl e, t') => (inl e, t')
    | (inr a, t') => k a t'
    end.

Definition emit (ev : event) : M unit := fun t => (inr tt, t ++ [ev]).

Definition lift {A} (r : exn + A) : M A := fun t => (r, t).

Declare Scope py_scope.
Delimit Scope py_scope with py.
Notation "x <- c ;; k" := (bind c (fun x => k))
  (at level 61, c at next level, right associativity) : py_scope.
Notation "c ;; k" := (bind c (fun _ => k))
  (at level 61, right associativity) : py_scope.
Local Open Scope py_scope.

(** Pure code that can raise: the same notation, on [exn + A]. *)
Definition rbind {A B} (r : exn + A) (k : A -> exn + B) : exn + B :=
  match r with
  | inl e => inl e
  | inr a => k a
  end.

Declare Scope res_scope.
Delimit Scope res_scope with res.
Notation "x <- c ;; k" := (rbind c (fun x => k))
  (at level 61, c at next level, right associativity) : res_scope.

(** [try: body except ...: handler] *)
Definition try_except {A} (body : M A) (handler : exn -> M A) : M A :=
  fun t =>
    match body t with
    | (inl e, t') => handler e t'
    | (inr a, t') => (inr a, t')
    end.

(** [l[i]] on a list *)
Definition getitem_list {A} (l : list A) (i : nat) : exn + A :=
  match nth_error l i with
  | Some a => inr a
  | None => inl IndexError
  end.

(** ** get_token_auth_header *)

(** The one-character string holding a double quote. *)
Definition dquote : string := String (ascii_of_nat 34) EmptyString.

(** The part of Flask's [request] the module reads:
    [request.headers.get('Authorization', None)]. *)
Record request : Type := { Authorization : option string }.

Definition get_token_auth_header (req : request) : M string :=
  emit Call_get_token_auth_header ;;
  let auth := Authorization req in
  if negb (PyStr.truthy auth) then
    raise (AuthError
             (mk_error 401 "authorization_header_missing"
                       "Authorization header is expected.") 401)
  else
    let parts := PyStr.split (match auth with Some s => s | None => "" end) in
    p0 <- lift (getitem_list parts 0) ;;
    if negb (String.eqb (PyStr.lower p0) "bearer") then
      raise (AuthError
               (mk_error 401 "invalid_header"
                         ("Authorization header must start with "
                          ++ dquote ++ "Bearer" ++ dquote ++ ".")%string) 401)
    else if Nat.eqb (length parts) 1 then
      raise (AuthError (mk_error 401 "invalid_header" "Token not found.") 401)
    else if Nat.ltb 2 (length parts) then
      raise (AuthError
               (mk_error 401 "invalid_header"
                         "Authorization header must be bearer token.") 401)
    else
      token <- lift (getitem_list parts 1) ;;
      ret token.

(** ** Python operations on JSON values *)

(** [d[k]] on a dict *)
Definition getitem_dict (d : dict) (k : string) : exn + json :=
  match dict_get d k with
  | Some v => inr v
  | None => inl (KeyError k)
  end.

(** [v[k]] with a string subscript: only a dict accepts it. *)
Definition py_getitem (v : json) (k : string) : exn + json :=
  match v with
  | JObj d => getitem_dict d k
  | _ => inl TypeError
  end.

Fixpoint chars (s : string) : list json :=
  match s with
  | EmptyString => []
  | String c s' => JStr (String c EmptyString) :: chars s'
  end.

(** [for x in v]: the elements of a list, the keys of a dict, the
    characters of a string; nothing else is iterable. *)
Definition py_iter (v : json) : exn + list json :=
  match v with
  | JArr l => inr l
  | JObj d => inr (map (fun kv => JStr (fst kv)) d)
  | JStr s => inr (chars s)
  | _ => inl TypeError
  end.

(** [x in v] for a string [x]: an equal element of a list, a key of a
    dict, a substring of a string. *)
Definition py_in (x : string) (v : json) : exn + bool :=
  match v with
  | JArr l => inr (existsb (fun item => py_eq item (JStr x)) l)
  | JObj d => inr (dict_has d x)
  | JStr s => inr (PyStr.contains s x)
  | _ => inl TypeError
  end.

(** ** check_permissions *)

Definition check_permissions (permission : string) (payload : dict) : M bool :=
  emit (Call_check_permissions permission payload) ;;
  if negb (dict_has payload "permissions") then
    raise (AuthError
             (mk_error 400 "invalid_claims"
                       "Permissions not included in JWT.") 400)
  else
    perms <- lift (getitem_dict payload "permissions") ;;
    found <- lift (py_in permission perms) ;;
    if negb found then
      raise (AuthError
               (mk_error 403 "unauthorized" "Permission not found.") 403)
    else ret true.

(** ** verify_decode_jwt *)

(** The module globals read from the environment with [os.getenv]:
    [None] when the variable is unset. *)
Record config : Type :=
  { AUTH0_DOMAIN : option string;
    ALGORITHMS : option string;
    API_AUDIENCE : option string }.

(** The library calls of the module.  [None] is the call raising:
    [URLError] for [urlopen(url).read()], [JSONDecodeError] for
    [json.loads], [JWTError] for [jwt.get_unverified_header] (the only
    exception python-jose lets out of it).  [jwt.decode] takes the
    token, the key, [algorithms], [audience] and [issuer]. *)
Record library : Type :=
  { urlopen_read : string -> option string;
    json_loads : string -> option json;
    jwt_get_unverified_header : string -> option dict;
    jwt_decode :
      string -> dict -> option string -> option string -> string ->
      exn + dict }.

Definition or_raise {A} (e : exn) (o : option A) : exn + A :=
  match o with
  | Some a => inr a
  | None => inl e
  end.

(** [f'{x}'] for a value that is a string or [None]. *)
Definition format_opt (o : option string) : string :=
  match o with
  | Some s => s
  | None => "None"
  end.

(** ['https://' + x + '/']: adding [None] to a string is a [TypeError]. *)
Definition issuer_of (o : option string) : exn + string :=
  match o with
  | Some s => inr ("https://" ++ s ++ "/")%string
  | None => inl TypeError
  end.

(** The dict display of the loop body:
    [{'kty': key['kty'], 'kid': key['kid'], 'use': key['use'],
      'n': key['n'], 'e': key['e']}]. *)
Definition projection (key : json) : exn + dict :=
  (kty <- py_getitem key "kty" ;;
   kid <- py_getitem key "kid" ;;
   use <- py_getitem key "use" ;;
   n <- py_getitem key "n" ;;
   e <- py_getitem key "e" ;;
   inr [("kty", kty); ("kid", kid); ("use", use); ("n", n); ("e", e)])%res.

(** The [for key in jwks['keys']] loop, with [rsa_key] as its state. *)
Fixpoint key_loop (keys : list json) (unverified_header : dict)
    (rsa_key : dict) : exn + dict :=
  match keys with
  | [] => inr rsa_key
  | key :: rest =>
      (kid <- py_getitem key "kid" ;;
       hkid <- getitem_dict unverified_header "kid" ;;
       if py_eq kid hkid then
         rsa_key' <- projection key ;;
         key_loop rest unverified_header rsa_key'
       else key_loop rest unverified_header rsa_key)%res
  end.

(** Truthiness of a dict: non-empty. *)
Definition dict_truthy (d : dict) : bool :=
  match d with
  | [] => false
  | _ :: _ => true
  end.

(** The value of the parameter [permission='']: the argument, or the
    default when the call leaves it out. *)
Definition or_default (permission : option string) : string :=
  match permission with
  | Some p => p
  | None => ""
  end.

Section Guard.

Variable cfg : config.
Variable lib : library.
Variable req : request.

Definition jwks_url : string :=
  ("https://" ++ format_opt (AUTH0_DOMAIN cfg) ++ "/.well-known/jwks.json")%string.

Definition verify_decode_jwt (token : string) : M dict :=
  emit (Call_verify_decode_jwt token) ;;
  emit (Net_urlopen jwks_url) ;;
  body <- lift (or_raise URLError (urlopen_read lib jwks_url)) ;;
  jwks <- lift (or_raise JSONDecodeError (json_loads lib body)) ;;
  unverified_header <-
    lift (or_raise JWTError (jwt_get_unverified_header lib token)) ;;
  if negb (dict_has unverified_header "kid") then
    raise (AuthError
             (mk_error 401 "invalid_header" "Authorization malformed.") 401)
  else
    keys <- lift (k <- py_getitem jwks "keys" ;; py_iter k)%res ;;
    rsa_key <- lift (key_loop keys unverified_header []) ;;
    if dict_truthy rsa_key then
      try_except
        (payload <-
           lift (issuer <- issuer_of (AUTH0_DOMAIN cfg) ;;
                 jwt_decode lib token rsa_key
                   (ALGORITHMS cfg) (API_AUDIENCE cfg) issuer)%res ;;
         ret payload)
        (fun ex =>
           match ex with
           | ExpiredSignatureError =>
               raise (AuthError
                        (mk_error 401 "token_expired" "Token expired.") 401)
           | JWTClaimsError =>
               raise (AuthError
                        (mk_error 401 "invalid_claims"
                           ("Incorrect claims. "
                            ++ "Please, check the audience and issuer.")%string)
                        401)
           | _ =>
               raise (AuthError
                        (mk_error 400 "invalid_header"
                           "Unable to parse authentication token.") 400)
           end)
    else
      raise (AuthError
               (mk_error 400 "invalid_header"
                  "Unable to find the appropriate key.") 400).

(** ** requires_auth

    [requires_auth(permission)(f)] is [wrapper]; [args] stands for
    [*args, **kwargs].  [permission = None] is the call that leaves
    the argument out and so takes the default [''].  The wrapped
    operation [f] is any computation of the monad. *)
Definition requires_auth (permission : option string) {A R : Type}
    (f : string -> A -> M R) (args : A) : M R :=
  let permission := or_default permission in
  token <- get_token_auth_header req ;;
  payload <- verify_decode_jwt token ;;
  _ <- check_permissions permission payload ;;
  emit (Call_f token) ;;
  f token args.

End Guard.

(** ** Vocabulary of the properties *)

(** A failure with [AuthError] 401 [invalid_header], whatever its
    description. *)
Definition invalid_header_401 (r : exn + string) : Prop :=
  exists d, r = inl (AuthError (mk_error 401 "invalid_header" d) 401).

(** [key['kid'] == kid] as a test that is false when the record has no
    [kid]. *)
Definition kid_matches (kid : json) (key : json) : bool :=
  match py_getitem key "kid" with
  | inr k => py_eq k kid
  | inl _ => false
  end.

(** A record that carries the five fields the loop reads. *)
Definition jwk_complete (key : json) : bool :=
  match key with
  | JObj d => forallb (dict_has d) ["kty"; "kid"; "use"; "n"; "e"]
  | _ => false
  end.

(** The claim of C3 as the specification words it: the lookup yields
    the projection of the first record whose [kid] matches. *)
Definition selects_first_match : Prop :=
  forall (keys : list json) (hdr : dict) (hk r : json),
    dict_get hdr "kid" = Some hk ->
    Forall (fun key => jwk_complete key = true) keys ->
    find (kid_matches hk) keys = Some r ->
    key_loop keys hdr [] = projection r.

(** ** A sample deployment *)

Module Sample.

Definition cfg : config :=
  {| AUTH0_DOMAIN := Some "tenant.auth0.com";
     ALGORITHMS := Some "RS256";
     API_AUDIENCE := Some "classes" |}.

Definition jwk (kid n : string) : json :=
  JObj [("alg", JStr "RS256"); ("kty", JStr "RSA"); ("use", JStr "sig");
        ("n", JStr n); ("e", JStr "AQAB"); ("kid", JStr kid);
        ("x5c", JArr [JStr "MIIDBzCCAe"])].

Definition jwks : json :=
  JObj [("keys", JArr [jwk "key-1" "q83v"; jwk "key-2" "sXch"])].

(** Two records under the same [kid]. *)
Definition rotated : list json :=
  [jwk "key-1" "q83v"; jwk "key-2" "sXch"; jwk "key-1" "x9Lm"].

Definition header (kid : string) : dict :=
  [("alg", JStr "RS256"); ("typ", JStr "JWT"); ("kid", JStr kid)].

Definition claims : dict :=
  [("iss", JStr "https://tenant.auth0.com/"); ("aud", JStr "classes");
   ("exp", JNum 1900000000); ("permissions", JArr [JStr "get:students"])].

(** The identity provider serves [jwks]; the JOSE library reads a
    header from the tokens below and from nothing else, accepts
    "good.token.sig", and reports "old.token.sig" as expired and
    "bad.token.sig" as wrongly signed. *)
Definition lib : library :=
  {| urlopen_read := fun url =>
       if String.eqb url "https://tenant.auth0.com/.well-known/jwks.json"
       then Some "jwks.json" else None;
     json_loads := fun body =>
       if String.eqb body "jwks.json" then Some jwks else None;
     jwt_get_unverified_header := fun token =>
       if String.eqb token "abc.def.ghi" then Some (header "key-9")
       else if String.eqb token "good.token.sig" then Some (header "key-2")
       else if String.eqb token "old.token.sig" then Some (header "key-1")
       else if String.eqb token "bad.token.sig" then Some (header "key-1")
       else None;
     jwt_decode := fun token rsa_key algorithms audience issuer =>
       if String.eqb token "good.token.sig" then inr claims
       else if String.eqb token "old.token.sig" then inl ExpiredSignatureError
       else inl JWTError |}.

End Sample.

Module SampleRuns.

(** A protected operation that answers with the token it was given. *)
Definition echo (token : string) (_ : unit) : M string := ret token.

Definition with_header (h : string) : request :=
  {| Authorization := Some h |}.

Definition guard (h : string) (permission : string) : M string :=
  requires_auth Sample.cfg Sample.lib (with_header h) (Some permission)
    echo tt.

End SampleRuns.

(** A string without a whitespace character. *)
Definition no_space (s : string) : bool :=
  forallb (fun c => negb (PyStr.isspace c)) (list_ascii_of_string s).

(** The failures [get_token_auth_header] raises on purpose, by their
    description. *)
Definition header_error (d : string) : exn :=
  AuthError (mk_error 401 "invalid_header" d) 401.

Definition header_missing : exn :=
  AuthError
    (mk_error 401 "authorization_header_missing"
              "Authorization header is expected.") 401.

(** An [AuthError] whose dictionary repeats its status code under
    ['error'], with one of the three status codes of the module. *)
Definition well_formed_error (x : exn) : Prop :=
  match x with
  | AuthError e status_code =>
      error e = status_code
      /\ (status_code = 400 \/ status_code = 401 \/ status_code = 403)%Z
  | _ => True
  end.

(** The five failures [verify_decode_jwt] raises on purpose. *)
Definition verifier_errors : list exn :=
  [AuthError (mk_error 401 "invalid_header" "Authorization malformed.") 401;
   AuthError (mk_error 400 "invalid_header"
                       "Unable to find the appropriate key.") 400;
   AuthError (mk_error 401 "token_expired" "Token expired.") 401;
   AuthError (mk_error 401 "invalid_claims"
                "Incorrect claims. Please, check the audience and issuer.") 401;
   AuthError (mk_error 400 "invalid_header"
                       "Unable to parse authentication token.") 400].

Module Fixture.

(** Libraries that answer every call the same way: the fetched
    document, the header read from the token, the result of
    [jwt.decode]. *)
Definition lib (doc : option json) (hdr : option dict)
    (outcome : exn + dict) : library :=
  {| urlopen_read := fun _ => Some "jwks.json";
     json_loads := fun _ => doc;
     jwt_get_unverified_header := fun _ => hdr;
     jwt_decode := fun _ _ _ _ _ => outcome |}.

Definition unset : config :=
  {| AUTH0_DOMAIN := None; ALGORITHMS := None; API_AUDIENCE := None |}.

(** The key selected for a token signed with "key-2" of [Sample.jwks]. *)
Definition rsa_key : dict :=
  [("kty", JStr "RSA"); ("kid", JStr "key-2"); ("use", JStr "sig");
   ("n", JStr "sXch"); ("e", JStr "AQAB")].

End Fixture.

(** * Properties *)

Ltac unfold_monad :=
  unfold bind, emit, lift, raise, ret, try_except, rbind, or_raise in *.

(** Case analysis on every [match] and [if] the goal is stuck on. *)
Ltac split_cases :=
  repeat match goal with
         | |- context [match ?x with _ => _ end] =>
             lazymatch x with
             | context [match _ with _ => _ end] => fail
             | _ => destruct x eqn:?
             end
         end.

(** ** Strings *)

Example split_bearer :
  PyStr.split "  Bearer   abc.def.ghi " = ["Bearer"; "abc.def.ghi"].
Proof. reflexivity. Qed.

Example lower_bearer : PyStr.lower "BeArEr" = "bearer".
Proof. reflexivity. Qed.

Lemma all_space_split_from (s : string) :
  PyStr.all_space s = true -> PyStr.split_from "" s = [].
Proof.
  unfold PyStr.all_space.
  induction s as [|c s IH]; simpl; intros H.
  - reflexivity.
  - apply andb_true_iff in H as [Hc Hs]. rewrite Hc. auto.
Qed.

Lemma split_from_nil (s cur : string) :
  PyStr.split_from cur s = [] -> cur = "" /\ PyStr.all_space s = true.
Proof.
  unfold PyStr.all_space. revert cur.
  induction s as [|c s IH]; simpl; intros cur.
  - destruct (String.eqb_spec cur ""); [auto | discriminate].
  - destruct (PyStr.isspace c); simpl.
    + destruct (String.eqb_spec cur "") as [Hcur|_]; [|discriminate].
      intros H. split; [assumption|]. now apply (IH "").
    + intros H. apply IH in H as [H _]. now destruct cur.
Qed.

(** A string has zero segments exactly when it holds whitespace only. *)
Lemma split_nil_iff (s : string) :
  PyStr.split s = [] <-> PyStr.all_space s = true.
Proof.
  split.
  - intros H. now apply split_from_nil in H.
  - apply all_space_split_from.
Qed.

(** ** Traces *)

(** The extractor adds its own call to the trace and nothing else, and
    its result does not depend on the trace. *)
Lemma get_token_auth_header_frame (req : request) (t : trace) :
  get_token_auth_header req t
  = (fst (get_token_auth_header req []), t ++ [Call_get_token_auth_header]).
Proof.
  unfold get_token_auth_header. unfold_monad. simpl.
  split_cases; reflexivity.
Qed.

Lemma check_permissions_frame (permission : string) (payload : dict) (t : trace) :
  check_permissions permission payload t
  = (fst (check_permissions permission payload []),
     t ++ [Call_check_permissions permission payload]).
Proof.
  unfold check_permissions. unfold_monad. simpl.
  split_cases; reflexivity.
Qed.

Lemma verify_decode_jwt_frame (cfg : config) (lib : library) (token : string)
    (t : trace) :
  verify_decode_jwt cfg lib token t
  = (fst (verify_decode_jwt cfg lib token []),
     t ++ [Call_verify_decode_jwt token; Net_urlopen (jwks_url cfg)]).
Proof.
  unfold verify_decode_jwt. unfold_monad. simpl.
  rewrite <- app_assoc. simpl.
  split_cases; reflexivity.
Qed.

(** ** The token extractor *)

(** A present header with at least one segment is rejected with
    401 [invalid_header] when it has not exactly two segments or its
    first segment is not "bearer" in lower case. *)
Lemma get_token_auth_header_malformed (s p0 : string) (rest : list string)
    (t : trace) :
  s <> "" ->
  PyStr.split s = p0 :: rest ->
  length (p0 :: rest) <> 2 \/ PyStr.lower p0 <> "bearer" ->
  invalid_header_401 (fst (get_token_auth_header {| Authorization := Some s |} t)).
Proof.
  intros Hs Hsplit Hbad.
  unfold get_token_auth_header, invalid_header_401. unfold_monad. simpl.
  apply String.eqb_neq in Hs. rewrite Hs, Hsplit. simpl.
  destruct (String.eqb_spec (PyStr.lower p0) "bearer") as [Hb|Hb]; simpl.
  - destruct rest as [|p1 [|p2 rest]]; simpl; eauto.
    destruct Hbad as [Hlen|Hlow]; [now elim Hlen | now elim Hlow].
  - eauto.
Qed.

(** A well-formed header yields its second segment unchanged. *)
Lemma get_token_auth_header_bearer (s p0 token : string) (t : trace) :
  PyStr.split s = [p0; token] ->
  PyStr.lower p0 = "bearer" ->
  get_token_auth_header {| Authorization := Some s |} t
  = (inr token, t ++ [Call_get_token_auth_header]).
Proof.
  intros Hsplit Hlow.
  unfold get_token_auth_header. unfold_monad. simpl.
  destruct (String.eqb_spec s "") as [->|_]; [discriminate Hsplit|].
  simpl. rewrite Hsplit. simpl. rewrite Hlow. reflexivity.
Qed.

(** C1 (the code departs from the claim): a present, non-empty header
    with zero segments, which is a header of whitespace only, makes
    [parts[0]] raise [IndexError]; that is not an [AuthError], where
    the claim asks for [AuthError] 401 [invalid_header]. *)
Theorem get_token_auth_header_blank_IndexError (s : string) (t : trace) :
  s <> "" ->
  PyStr.split s = [] ->
  get_token_auth_header {| Authorization := Some s |} t
  = (inl IndexError, t ++ [Call_get_token_auth_header])
  /\ is_AuthError IndexError = false.
Proof.
  intros Hs Hsp. split; [|reflexivity].
  unfold get_token_auth_header. unfold_monad. simpl.
  apply String.eqb_neq in Hs. rewrite Hs. simpl.
  rewrite Hsp. reflexivity.
Qed.

(** The header of one space, and the header of one no-break space
    (0xA0), which an HTTP server does not trim. *)
Lemma get_token_auth_header_blank_IndexError_witness :
  get_token_auth_header {| Authorization := Some " " |} []
  = (inl IndexError, [Call_get_token_auth_header])
  /\ get_token_auth_header
       {| Authorization := Some (String (ascii_of_nat 160) EmptyString) |} []
     = (inl IndexError, [Call_get_token_auth_header]).
Proof.
  split.
  - apply (get_token_auth_header_blank_IndexError " " []);
      [discriminate | reflexivity].
  - apply (get_token_auth_header_blank_IndexError
             (String (ascii_of_nat 160) EmptyString) []);
      [discriminate | reflexivity].
Defined.

(** C10: a header that is present but empty is taken for a missing one:
    the extractor fails with [AuthError] 401
    [authorization_header_missing], exactly as it does for an absent
    header, and not with [invalid_header]. *)
Theorem get_token_auth_header_empty_is_missing (t : trace) :
  get_token_auth_header {| Authorization := Some "" |} t
  = (inl (AuthError
            (mk_error 401 "authorization_header_missing"
                      "Authorization header is expected.") 401),
     t ++ [Call_get_token_auth_header])
  /\ get_token_auth_header {| Authorization := Some "" |} t
     = get_token_auth_header {| Authorization := None |} t
  /\ ~ invalid_header_401
         (fst (get_token_auth_header {| Authorization := Some "" |} t)).
Proof.
  repeat split.
  intros [d Hd]. discriminate Hd.
Qed.

(** ** The permission checker *)

Lemma py_eq_JStr (item : json) (x : string) :
  py_eq item (JStr x) = true <-> item = JStr x.
Proof.
  destruct item; simpl; split; intros H; try discriminate.
  - apply String.eqb_eq in H. now subst.
  - injection H as ->. apply String.eqb_refl.
Qed.

(** [x in l] on a list is the membership of the string [x]. *)
Lemma py_in_JArr (x : string) (l : list json) :
  exists b, py_in x (JArr l) = inr b /\ (b = true <-> In (JStr x) l).
Proof.
  eexists. split; [reflexivity|].
  rewrite existsb_exists. split.
  - intros [item [Hin Heq]]. apply py_eq_JStr in Heq. now subst.
  - intros Hin. exists (JStr x). split; [assumption|]. now apply py_eq_JStr.
Qed.

Lemma check_permissions_member (permission : string) (payload : dict)
    (l : list json) (t : trace) :
  dict_get payload "permissions" = Some (JArr l) ->
  In (JStr permission) l ->
  fst (check_permissions permission payload t) = inr true.
Proof.
  intros Hget Hin.
  destruct (py_in_JArr permission l) as [b [Hb Hiff]].
  unfold check_permissions, dict_has, getitem_dict. unfold_monad.
  rewrite Hget, Hb. simpl.
  rewrite (proj2 Hiff Hin). reflexivity.
Qed.

Lemma check_permissions_not_member (permission : string) (payload : dict)
    (l : list json) (t : trace) :
  dict_get payload "permissions" = Some (JArr l) ->
  ~ In (JStr permission) l ->
  fst (check_permissions permission payload t)
  = inl (AuthError (mk_error 403 "unauthorized" "Permission not found.") 403).
Proof.
  intros Hget Hin.
  destruct (py_in_JArr permission l) as [b [Hb Hiff]].
  unfold check_permissions, dict_has, getitem_dict. unfold_monad.
  rewrite Hget, Hb. simpl.
  destruct b; [|reflexivity].
  elim Hin. now apply Hiff.
Qed.

(** C9: [check_permissions] fails with [AuthError] 400 [invalid_claims]
    "Permissions not included in JWT." when the claims have no
    [permissions] entry; with a [permissions] collection it fails with
    [AuthError] 403 [unauthorized] "Permission not found." when the
    required permission is not a member, and succeeds otherwise.  With
    [permissions = ["get:students"]], "get:students" passes and
    "post:students" fails with 403. *)
Theorem check_permissions_cases (permission : string) (payload : dict)
    (t : trace) :
  (dict_get payload "permissions" = None ->
   fst (check_permissions permission payload t)
   = inl (AuthError
            (mk_error 400 "invalid_claims" "Permissions not included in JWT.")
            400))
  /\ (forall l,
        dict_get payload "permissions" = Some (JArr l) ->
        ~ In (JStr permission) l ->
        fst (check_permissions permission payload t)
        = inl (AuthError
                 (mk_error 403 "unauthorized" "Permission not found.") 403))
  /\ (forall l,
        dict_get payload "permissions" = Some (JArr l) ->
        In (JStr permission) l ->
        fst (check_permissions permission payload t) = inr true)
  /\ fst (check_permissions "get:students"
            [("permissions", JArr [JStr "get:students"])] t) = inr true
  /\ fst (check_permissions "post:students"
            [("permissions", JArr [JStr "get:students"])] t)
     = inl (AuthError
              (mk_error 403 "unauthorized" "Permission not found.") 403).
Proof.
  split; [|split; [|split; [|split]]].
  - intros Hget. unfold check_permissions, dict_has. unfold_monad.
    rewrite Hget. reflexivity.
  - intros l. apply check_permissions_not_member.
  - intros l. apply check_permissions_member.
  - reflexivity.
  - reflexivity.
Qed.

(** Claims without permissions, and claims granting "get:students". *)
Lemma check_permissions_cases_witness :
  fst (check_permissions "get:students" [("iss", JStr "https://issuer/")] [])
  = inl (AuthError
           (mk_error 400 "invalid_claims" "Permissions not included in JWT.")
           400)
  /\ fst (check_permissions "post:students"
            [("permissions", JArr [JStr "get:students"])] [])
     = inl (AuthError (mk_error 403 "unauthorized" "Permission not found.") 403)
  /\ fst (check_permissions "get:students"
            [("permissions", JArr [JStr "get:students"])] [])
     = inr true.
Proof.
  split; [|split].
  - apply (proj1 (check_permissions_cases
                    "get:students" [("iss", JStr "https://issuer/")] [])).
    reflexivity.
  - apply (proj1 (proj2 (check_permissions_cases
                    "post:students"
                    [("permissions", JArr [JStr "get:students"])] []))
             [JStr "get:students"]).
    + reflexivity.
    + simpl. intros [H|[]]. discriminate H.
  - apply (proj1 (proj2 (proj2 (check_permissions_cases
                    "get:students"
                    [("permissions", JArr [JStr "get:students"])] [])))
             [JStr "get:students"]).
    + reflexivity.
    + simpl. left. reflexivity.
Defined.

(** C5: with the empty string as the required permission (what
    [requires_auth()] passes when its argument is left out), the check
    over a [permissions] collection fails with [AuthError] 403
    [unauthorized] unless the empty string is itself a member of the
    collection; an empty requirement is no free pass. *)
Theorem check_permissions_empty_requirement (payload : dict) (l : list json)
    (t : trace) :
  dict_get payload "permissions" = Some (JArr l) ->
  (~ In (JStr "") l ->
   fst (check_permissions "" payload t)
   = inl (AuthError (mk_error 403 "unauthorized" "Permission not found.") 403))
  /\ (In (JStr "") l -> fst (check_permissions "" payload t) = inr true)
  /\ (forall cfg lib req (A R : Type) (f : string -> A -> M R) (args : A),
        requires_auth cfg lib req None f args
        = requires_auth cfg lib req (Some "") f args).
Proof.
  intros Hget. split; [|split].
  - now apply check_permissions_not_member.
  - now apply check_permissions_member.
  - reflexivity.
Qed.

Lemma check_permissions_empty_requirement_witness :
  fst (check_permissions "" [("permissions", JArr [JStr "get:students"])] [])
  = inl (AuthError (mk_error 403 "unauthorized" "Permission not found.") 403)
  /\ fst (check_permissions ""
            [("permissions", JArr [JStr "get:students"; JStr ""])] [])
     = inr true.
Proof.
  split.
  - apply (proj1 (check_permissions_empty_requirement
                    [("permissions", JArr [JStr "get:students"])]
                    [JStr "get:students"] [] eq_refl)).
    simpl. intros [H|[]]. discriminate H.
  - apply (proj1 (proj2 (check_permissions_empty_requirement
                    [("permissions", JArr [JStr "get:students"; JStr ""])]
                    [JStr "get:students"; JStr ""] [] eq_refl))).
    simpl. right. left. reflexivity.
Defined.

(** ** The key lookup *)

Lemma dict_has_getitem (d : dict) (k : string) :
  dict_has d k = true -> exists v, getitem_dict d k = inr v.
Proof.
  unfold dict_has, getitem_dict.
  destruct (dict_get d k) as [v|]; [eauto | discriminate].
Qed.

Lemma jwk_complete_fields (key : json) :
  jwk_complete key = true ->
  exists kty kid use n e,
    py_getitem key "kty" = inr kty /\ py_getitem key "kid" = inr kid
    /\ py_getitem key "use" = inr use /\ py_getitem key "n" = inr n
    /\ py_getitem key "e" = inr e
    /\ projection key
       = inr [("kty", kty); ("kid", kid); ("use", use); ("n", n); ("e", e)].
Proof.
  destruct key as [| | | | |d]; simpl; try discriminate.
  rewrite !andb_true_iff.
  intros (Hkty & Hkid & Huse & Hn & He & _).
  apply dict_has_getitem in Hkty as [kty Hkty], Hkid as [kid Hkid],
      Huse as [use Huse], Hn as [n Hn], He as [e He].
  exists kty, kid, use, n, e.
  unfold projection, py_getitem, rbind.
  rewrite Hkty, Hkid, Huse, Hn, He. auto 10.
Qed.

Lemma key_loop_skip (key : json) (rest : list json) (hdr : dict)
    (hk k : json) (rsa_key : dict) :
  dict_get hdr "kid" = Some hk ->
  py_getitem key "kid" = inr k ->
  py_eq k hk = false ->
  key_loop (key :: rest) hdr rsa_key = key_loop rest hdr rsa_key.
Proof.
  intros Hhk Hk Hne. simpl. unfold rbind, getitem_dict.
  rewrite Hk, Hhk, Hne. reflexivity.
Qed.

Lemma key_loop_take (key : json) (rest : list json) (hdr : dict)
    (hk : json) (rsa_key rsa_key' : dict) :
  dict_get hdr "kid" = Some hk ->
  kid_matches hk key = true ->
  projection key = inr rsa_key' ->
  key_loop (key :: rest) hdr rsa_key = key_loop rest hdr rsa_key'.
Proof.
  unfold kid_matches. intros Hhk Hm Hp. simpl. unfold rbind, getitem_dict.
  destruct (py_getitem key "kid") as [|k]; [discriminate|].
  rewrite Hhk, Hm, Hp. reflexivity.
Qed.

(** Records that all carry a [kid] different from the header's leave
    [rsa_key] as it was. *)
Lemma key_loop_no_match (keys : list json) (hdr : dict) (hk : json)
    (rsa_key : dict) :
  dict_get hdr "kid" = Some hk ->
  Forall (fun key => exists k, py_getitem key "kid" = inr k
                               /\ py_eq k hk = false) keys ->
  key_loop keys hdr rsa_key = inr rsa_key.
Proof.
  intros Hhk Hall. induction Hall as [|key rest [k [Hk Hne]] _ IH].
  - reflexivity.
  - rewrite (key_loop_skip key rest hdr hk k); assumption.
Qed.

Lemma complete_no_match (hk : json) (keys : list json) :
  Forall (fun key => jwk_complete key = true) keys ->
  Forall (fun key => kid_matches hk key = false) keys ->
  Forall (fun key => exists k, py_getitem key "kid" = inr k
                               /\ py_eq k hk = false) keys.
Proof.
  intros Hc Hn. induction Hc as [|key rest Hkey _ IH].
  - constructor.
  - inversion Hn as [|? ? Hm Hrest]; subst.
    constructor; [|auto].
    apply jwk_complete_fields in Hkey as (kty & kid & _ & _ & _ & _ & Hkid & _).
    exists kid. split; [assumption|].
    unfold kid_matches in Hm. now rewrite Hkid in Hm.
Qed.

(** Over complete records the loop leaves the projection of the last
    record whose [kid] matches. *)
Lemma key_loop_last_match (pre post : list json) (r : json) (hdr : dict)
    (hk : json) (rsa_key rk : dict) :
  dict_get hdr "kid" = Some hk ->
  Forall (fun key => jwk_complete key = true) (pre ++ r :: post) ->
  kid_matches hk r = true ->
  Forall (fun key => kid_matches hk key = false) post ->
  projection r = inr rk ->
  key_loop (pre ++ r :: post) hdr rsa_key = inr rk.
Proof.
  intros Hhk Hc Hm Hpost Hp. revert rsa_key.
  induction pre as [|key pre IH]; intros rsa_key.
  - simpl app. rewrite (key_loop_take r post hdr hk rsa_key rk) by assumption.
    apply (key_loop_no_match post hdr hk); [assumption|].
    apply complete_no_match; [|assumption].
    now inversion Hc.
  - inversion Hc as [|? ? Hkey Hrest]; subst.
    specialize (IH Hrest).
    destruct (kid_matches hk key) eqn:Hkm.
    + destruct (jwk_complete_fields key Hkey)
        as (kty & kid & use & n & e & _ & _ & _ & _ & _ & Hproj).
      simpl app. rewrite (key_loop_take key _ hdr hk rsa_key _ Hhk Hkm Hproj).
      apply IH.
    + destruct (jwk_complete_fields key Hkey)
        as (kty & kid & use & n & e & _ & Hkid & _).
      simpl app. rewrite (key_loop_skip key _ hdr hk kid rsa_key Hhk Hkid); [apply IH|].
      unfold kid_matches in Hkm. now rewrite Hkid in Hkm.
Qed.

(** C3 as the specification states it fails: with two records under one
    [kid] the first match is the record with modulus "q83v", and the
    loop leaves the projection of the later one, with "x9Lm". *)
Lemma key_loop_not_first_match :
  find (kid_matches (JStr "key-1")) Sample.rotated
  = Some (Sample.jwk "key-1" "q83v")
  /\ key_loop Sample.rotated (Sample.header "key-1") []
     = projection (Sample.jwk "key-1" "x9Lm")
  /\ key_loop Sample.rotated (Sample.header "key-1") []
     <> projection (Sample.jwk "key-1" "q83v")
  /\ ~ selects_first_match.
Proof.
  split; [reflexivity|]. split; [reflexivity|]. split; [discriminate|].
  intros H.
  specialize (H Sample.rotated (Sample.header "key-1") (JStr "key-1")
                (Sample.jwk "key-1" "q83v") eq_refl).
  assert (Hc : Forall (fun key => jwk_complete key = true) Sample.rotated)
    by (repeat constructor).
  specialize (H Hc eq_refl). discriminate H.
Qed.

(** C3 (amended): over a keys array whose records carry the five
    fields, the lookup inside [verify_decode_jwt] selects the last
    record whose [kid] equals the token header's [kid], and what it
    leaves in [rsa_key] holds exactly the fields kty, kid, use, n, e of
    that record. *)
Theorem key_loop_selects_last_match (pre post : list json) (r : json)
    (hdr : dict) (hk : json) (rsa_key : dict) :
  dict_get hdr "kid" = Some hk ->
  Forall (fun key => jwk_complete key = true) (pre ++ r :: post) ->
  kid_matches hk r = true ->
  Forall (fun key => kid_matches hk key = false) post ->
  exists kty kid use n e,
    py_getitem r "kty" = inr kty /\ py_getitem r "kid" = inr kid
    /\ py_getitem r "use" = inr use /\ py_getitem r "n" = inr n
    /\ py_getitem r "e" = inr e
    /\ key_loop (pre ++ r :: post) hdr rsa_key
       = inr [("kty", kty); ("kid", kid); ("use", use); ("n", n); ("e", e)].
Proof.
  intros Hhk Hc Hm Hpost.
  assert (Hr : jwk_complete r = true).
  { rewrite Forall_forall in Hc. apply Hc, in_elt. }
  destruct (jwk_complete_fields r Hr)
    as (kty & kid & use & n & e & Hkty & Hkid & Huse & Hn & He & Hproj).
  exists kty, kid, use, n, e. repeat (split; [assumption|]).
  now apply (key_loop_last_match pre post r hdr hk).
Qed.

Lemma key_loop_selects_last_match_witness :
  key_loop Sample.rotated (Sample.header "key-1") []
  = inr [("kty", JStr "RSA"); ("kid", JStr "key-1"); ("use", JStr "sig");
         ("n", JStr "x9Lm"); ("e", JStr "AQAB")].
Proof.
  destruct (key_loop_selects_last_match
              [Sample.jwk "key-1" "q83v"; Sample.jwk "key-2" "sXch"] []
              (Sample.jwk "key-1" "x9Lm") (Sample.header "key-1")
              (JStr "key-1") [] eq_refl)
    as (kty & kid & use & n & e & Hkty & Hkid & Huse & Hn & He & Hloop).
  - repeat constructor.
  - reflexivity.
  - constructor.
  - injection Hkty as <-. injection Hkid as <-. injection Huse as <-.
    injection Hn as <-. injection He as <-. exact Hloop.
Defined.

(** ** The verifier *)

(** The verifier up to the loop, once the key set is fetched and the
    token header holds a [kid]. *)
Ltac run_verify Hurl Hjson Hhdr Hkid Hkeys :=
  unfold verify_decode_jwt, dict_has, getitem_dict; unfold_monad;
  cbn [fst snd]; rewrite Hurl, Hjson, Hhdr, Hkid, Hkeys; cbn [py_iter negb].

(** A failure inside [jwt.decode] that is neither expiry nor a claims
    mismatch is reported as 400 [invalid_header]. *)
Lemma verify_decode_jwt_decode_error (cfg : config) (lib : library)
    (token body d : string) (jwks hk : json) (hdr rk : dict)
    (keys : list json) (ex : exn) (t : trace) :
  AUTH0_DOMAIN cfg = Some d ->
  urlopen_read lib (jwks_url cfg) = Some body ->
  json_loads lib body = Some jwks ->
  jwt_get_unverified_header lib token = Some hdr ->
  dict_get hdr "kid" = Some hk ->
  py_getitem jwks "keys" = inr (JArr keys) ->
  key_loop keys hdr [] = inr rk ->
  dict_truthy rk = true ->
  jwt_decode lib token rk (ALGORITHMS cfg) (API_AUDIENCE cfg)
    ("https://" ++ d ++ "/")%string = inl ex ->
  ex <> ExpiredSignatureError ->
  ex <> JWTClaimsError ->
  fst (verify_decode_jwt cfg lib token t)
  = inl (AuthError
           (mk_error 400 "invalid_header"
                     "Unable to parse authentication token.") 400).
Proof.
  intros Hd Hurl Hjson Hhdr Hkid Hkeys Hloop Htruthy Hdec Hne1 Hne2.
  run_verify Hurl Hjson Hhdr Hkid Hkeys.
  rewrite Hloop, Htruthy, Hd. cbn [issuer_of]. rewrite Hdec.
  destruct ex; try reflexivity; congruence.
Qed.

(** C2 (the code departs from the claim): [jwt.get_unverified_header]
    is called before the [try] block, so for a token whose header cannot
    be read the [JWTError] of the library leaves [verify_decode_jwt] as
    it is; it is not an [AuthError], where the claim asks for
    [AuthError] 400 [invalid_header] "Unable to parse authentication
    token." on every malformed token. *)
Theorem verify_decode_jwt_unreadable_header (cfg : config) (lib : library)
    (token body : string) (jwks : json) (t : trace) :
  urlopen_read lib (jwks_url cfg) = Some body ->
  json_loads lib body = Some jwks ->
  jwt_get_unverified_header lib token = None ->
  verify_decode_jwt cfg lib token t
  = (inl JWTError,
     t ++ [Call_verify_decode_jwt token; Net_urlopen (jwks_url cfg)])
  /\ is_AuthError JWTError = false.
Proof.
  intros Hurl Hjson Hhdr. split; [|reflexivity].
  rewrite verify_decode_jwt_frame. f_equal.
  unfold verify_decode_jwt. unfold_monad. cbn [fst snd].
  rewrite Hurl, Hjson, Hhdr. reflexivity.
Qed.

(** The token "abc", which has no header segment. *)
Lemma verify_decode_jwt_unreadable_header_witness :
  verify_decode_jwt Sample.cfg Sample.lib "abc" []
  = (inl JWTError,
     [Call_verify_decode_jwt "abc";
      Net_urlopen "https://tenant.auth0.com/.well-known/jwks.json"]).
Proof.
  apply (proj1 (verify_decode_jwt_unreadable_header
                  Sample.cfg Sample.lib "abc" "jwks.json" Sample.jwks []
                  eq_refl eq_refl eq_refl)).
Defined.

(** C7: when the [kid] of the token header equals the [kid] of no
    record of the fetched keys array, [verify_decode_jwt] fails with
    [AuthError] 400 [invalid_header] "Unable to find the appropriate
    key." *)
Theorem verify_decode_jwt_unknown_kid (cfg : config) (lib : library)
    (token body : string) (jwks hk : json) (hdr : dict) (keys : list json)
    (t : trace) :
  urlopen_read lib (jwks_url cfg) = Some body ->
  json_loads lib body = Some jwks ->
  jwt_get_unverified_header lib token = Some hdr ->
  dict_get hdr "kid" = Some hk ->
  py_getitem jwks "keys" = inr (JArr keys) ->
  Forall (fun key => exists k, py_getitem key "kid" = inr k
                               /\ py_eq k hk = false) keys ->
  verify_decode_jwt cfg lib token t
  = (inl (AuthError
            (mk_error 400 "invalid_header"
                      "Unable to find the appropriate key.") 400),
     t ++ [Call_verify_decode_jwt token; Net_urlopen (jwks_url cfg)]).
Proof.
  intros Hurl Hjson Hhdr Hkid Hkeys Hnone.
  rewrite verify_decode_jwt_frame. f_equal.
  run_verify Hurl Hjson Hhdr Hkid Hkeys.
  rewrite (key_loop_no_match keys hdr hk [] Hkid Hnone). reflexivity.
Qed.

(** The scenario of the specification: the token "abc.def.ghi", whose
    [kid] no served key carries. *)
Lemma verify_decode_jwt_unknown_kid_witness :
  verify_decode_jwt Sample.cfg Sample.lib "abc.def.ghi" []
  = (inl (AuthError
            (mk_error 400 "invalid_header"
                      "Unable to find the appropriate key.") 400),
     [Call_verify_decode_jwt "abc.def.ghi";
      Net_urlopen "https://tenant.auth0.com/.well-known/jwks.json"]).
Proof.
  apply (verify_decode_jwt_unknown_kid
           Sample.cfg Sample.lib "abc.def.ghi" "jwks.json" Sample.jwks
           (JStr "key-9") (Sample.header "key-9")
           [Sample.jwk "key-1" "q83v"; Sample.jwk "key-2" "sXch"] []
           eq_refl eq_refl eq_refl eq_refl eq_refl).
  repeat constructor.
  - exists (JStr "key-1"). split; reflexivity.
  - exists (JStr "key-2"). split; reflexivity.
Defined.

(** A record without a [kid] is outside the key sets of C7: the loop
    reads [key['kid']] of every record and raises [KeyError] there. *)
Example key_loop_record_without_kid :
  key_loop [JObj [("kty", JStr "RSA"); ("n", JStr "q83v"); ("e", JStr "AQAB")]]
    (Sample.header "key-9") []
  = inl (KeyError "kid").
Proof. reflexivity. Qed.

(** C8: when a record of the key set matches the token's [kid] and
    [jwt.decode], given the key selected from it, reports the token as
    expired, [verify_decode_jwt] fails with [AuthError] 401
    [token_expired]; the error code is not [invalid_header]. *)
Theorem verify_decode_jwt_expired (cfg : config) (lib : library)
    (token body d : string) (jwks hk r : json) (hdr rk : dict)
    (pre post : list json) (t : trace) :
  AUTH0_DOMAIN cfg = Some d ->
  urlopen_read lib (jwks_url cfg) = Some body ->
  json_loads lib body = Some jwks ->
  jwt_get_unverified_header lib token = Some hdr ->
  dict_get hdr "kid" = Some hk ->
  py_getitem jwks "keys" = inr (JArr (pre ++ r :: post)) ->
  Forall (fun key => jwk_complete key = true) (pre ++ r :: post) ->
  kid_matches hk r = true ->
  Forall (fun key => kid_matches hk key = false) post ->
  projection r = inr rk ->
  jwt_decode lib token rk (ALGORITHMS cfg) (API_AUDIENCE cfg)
    ("https://" ++ d ++ "/")%string = inl ExpiredSignatureError ->
  verify_decode_jwt cfg lib token t
  = (inl (AuthError (mk_error 401 "token_expired" "Token expired.") 401),
     t ++ [Call_verify_decode_jwt token; Net_urlopen (jwks_url cfg)])
  /\ (forall e sc,
        fst (verify_decode_jwt cfg lib token t) = inl (AuthError e sc) ->
        code e <> "invalid_header").
Proof.
  intros Hd Hurl Hjson Hhdr Hkid Hkeys Hc Hm Hpost Hproj Hdec.
  assert (Hrun : verify_decode_jwt cfg lib token t
                 = (inl (AuthError
                           (mk_error 401 "token_expired" "Token expired.") 401),
                    t ++ [Call_verify_decode_jwt token;
                          Net_urlopen (jwks_url cfg)])).
  { rewrite verify_decode_jwt_frame. f_equal.
    run_verify Hurl Hjson Hhdr Hkid Hkeys.
    rewrite (key_loop_last_match pre post r hdr hk [] rk Hkid Hc Hm Hpost Hproj).
    assert (Htruthy : dict_truthy rk = true).
    { destruct (jwk_complete_fields r) as (? & ? & ? & ? & ? & Hf).
      - rewrite Forall_forall in Hc. apply Hc, in_elt.
      - destruct Hf as (_ & _ & _ & _ & _ & Hf). rewrite Hproj in Hf.
        injection Hf as ->. reflexivity. }
    rewrite Htruthy, Hd. cbn [issuer_of]. rewrite Hdec. reflexivity. }
  split; [exact Hrun|].
  intros e sc. rewrite Hrun. cbn [fst]. intros He.
  injection He as <- _. discriminate.
Qed.

(** The token "old.token.sig", signed with "key-1" and expired. *)
Lemma verify_decode_jwt_expired_witness :
  verify_decode_jwt Sample.cfg Sample.lib "old.token.sig" []
  = (inl (AuthError (mk_error 401 "token_expired" "Token expired.") 401),
     [Call_verify_decode_jwt "old.token.sig";
      Net_urlopen "https://tenant.auth0.com/.well-known/jwks.json"]).
Proof.
  apply (proj1 (verify_decode_jwt_expired
                  Sample.cfg Sample.lib "old.token.sig" "jwks.json"
                  "tenant.auth0.com" Sample.jwks (JStr "key-1")
                  (Sample.jwk "key-1" "q83v") (Sample.header "key-1")
                  [("kty", JStr "RSA"); ("kid", JStr "key-1");
                   ("use", JStr "sig"); ("n", JStr "q83v"); ("e", JStr "AQAB")]
                  [] [Sample.jwk "key-2" "sXch"] []
                  eq_refl eq_refl eq_refl eq_refl eq_refl eq_refl
                  ltac:(repeat constructor) eq_refl
                  ltac:(repeat constructor) eq_refl eq_refl)).
Defined.

Example verify_decode_jwt_bad_signature :
  verify_decode_jwt Sample.cfg Sample.lib "bad.token.sig" []
  = (inl (AuthError
            (mk_error 400 "invalid_header"
                      "Unable to parse authentication token.") 400),
     [Call_verify_decode_jwt "bad.token.sig";
      Net_urlopen "https://tenant.auth0.com/.well-known/jwks.json"]).
Proof. reflexivity. Qed.

Example verify_decode_jwt_good :
  verify_decode_jwt Sample.cfg Sample.lib "good.token.sig" []
  = (inr Sample.claims,
     [Call_verify_decode_jwt "good.token.sig";
      Net_urlopen "https://tenant.auth0.com/.well-known/jwks.json"]).
Proof. reflexivity. Qed.

(** ** The guard *)

Section GuardProperties.

Variable cfg : config.
Variable lib : library.
Variable req : request.
Variable permission : option string.
Variables A R : Type.
Variable f : string -> A -> M R.
Variable args : A.

(** C6: a request without an authorization header makes the guard
    fail in the extractor with [AuthError] 401
    [authorization_header_missing]; the trace of the run holds the
    call of the extractor only, so [verify_decode_jwt] is not called
    and no key set is fetched. *)
Theorem requires_auth_missing_header :
  Authorization req = None ->
  requires_auth cfg lib req permission f args []
  = (inl (AuthError
            (mk_error 401 "authorization_header_missing"
                      "Authorization header is expected.") 401),
     [Call_get_token_auth_header])
  /\ (forall url,
        ~ In (Net_urlopen url)
             (snd (requires_auth cfg lib req permission f args [])))
  /\ (forall token,
        ~ In (Call_verify_decode_jwt token)
             (snd (requires_auth cfg lib req permission f args []))).
Proof.
  intros Hnone.
  assert (Hrun : requires_auth cfg lib req permission f args []
                 = (inl (AuthError
                           (mk_error 401 "authorization_header_missing"
                              "Authorization header is expected.") 401),
                    [Call_get_token_auth_header])).
  { unfold requires_auth, get_token_auth_header. unfold_monad.
    rewrite Hnone. reflexivity. }
  rewrite Hrun. split; [reflexivity|].
  split; intros x [H|[]]; discriminate H.
Qed.

(** C4: the guard runs extraction, verification, the permission check
    and the wrapped operation in this order.  A stage that raises
    ends the run: the guard raises the same exception and the trace
    holds no call of a later stage nor of the wrapped operation.
    When all three stages pass, the wrapped operation is called with
    the token that was extracted and verified. *)
Theorem requires_auth_stages :
  (forall ex,
      fst (get_token_auth_header req []) = inl ex ->
      requires_auth cfg lib req permission f args []
      = (inl ex, [Call_get_token_auth_header]))
  /\ (forall token ex,
        fst (get_token_auth_header req []) = inr token ->
        fst (verify_decode_jwt cfg lib token []) = inl ex ->
        requires_auth cfg lib req permission f args []
        = (inl ex,
           [Call_get_token_auth_header;
            Call_verify_decode_jwt token; Net_urlopen (jwks_url cfg)]))
  /\ (forall token payload ex,
        fst (get_token_auth_header req []) = inr token ->
        fst (verify_decode_jwt cfg lib token []) = inr payload ->
        fst (check_permissions (or_default permission) payload []) = inl ex ->
        requires_auth cfg lib req permission f args []
        = (inl ex,
           [Call_get_token_auth_header;
            Call_verify_decode_jwt token; Net_urlopen (jwks_url cfg);
            Call_check_permissions (or_default permission) payload]))
  /\ (forall token payload ok,
        fst (get_token_auth_header req []) = inr token ->
        fst (verify_decode_jwt cfg lib token []) = inr payload ->
        fst (check_permissions (or_default permission) payload []) = inr ok ->
        requires_auth cfg lib req permission f args []
        = f token args
            [Call_get_token_auth_header;
             Call_verify_decode_jwt token; Net_urlopen (jwks_url cfg);
             Call_check_permissions (or_default permission) payload;
             Call_f token]).
Proof.
  unfold requires_auth, bind.
  repeat split.
  - intros ex He. rewrite get_token_auth_header_frame, He. reflexivity.
  - intros token ex He Hv.
    rewrite get_token_auth_header_frame, He.
    rewrite verify_decode_jwt_frame, Hv. reflexivity.
  - intros token payload ex He Hv Hc.
    rewrite get_token_auth_header_frame, He.
    rewrite verify_decode_jwt_frame, Hv.
    rewrite check_permissions_frame, Hc. reflexivity.
  - intros token payload ok He Hv Hc.
    rewrite get_token_auth_header_frame, He.
    rewrite verify_decode_jwt_frame, Hv.
    rewrite check_permissions_frame, Hc. reflexivity.
Qed.

End GuardProperties.

Lemma requires_auth_missing_header_witness :
  requires_auth Sample.cfg Sample.lib {| Authorization := None |}
    (Some "get:students") SampleRuns.echo tt []
  = (inl (AuthError
            (mk_error 401 "authorization_header_missing"
                      "Authorization header is expected.") 401),
     [Call_get_token_auth_header]).
Proof.
  apply (proj1 (requires_auth_missing_header
                  Sample.cfg Sample.lib {| Authorization := None |}
                  (Some "get:students") unit string SampleRuns.echo tt
                  eq_refl)).
Defined.

(** One run for each way the guard can end: a header that is not a
    bearer header, an expired token, a permission the token does not
    grant, and a call that goes through. *)
Lemma requires_auth_stages_witness :
  SampleRuns.guard "Basic dXNlcg==" "get:students" []
  = (inl (AuthError
            (mk_error 401 "invalid_header"
               ("Authorization header must start with "
                ++ dquote ++ "Bearer" ++ dquote ++ ".")%string) 401),
     [Call_get_token_auth_header])
  /\ SampleRuns.guard "Bearer old.token.sig" "get:students" []
     = (inl (AuthError (mk_error 401 "token_expired" "Token expired.") 401),
        [Call_get_token_auth_header;
         Call_verify_decode_jwt "old.token.sig";
         Net_urlopen "https://tenant.auth0.com/.well-known/jwks.json"])
  /\ SampleRuns.guard "Bearer good.token.sig" "post:students" []
     = (inl (AuthError
               (mk_error 403 "unauthorized" "Permission not found.") 403),
        [Call_get_token_auth_header;
         Call_verify_decode_jwt "good.token.sig";
         Net_urlopen "https://tenant.auth0.com/.well-known/jwks.json";
         Call_check_permissions "post:students" Sample.claims])
  /\ SampleRuns.guard "bearer good.token.sig" "get:students" []
     = (inr "good.token.sig",
        [Call_get_token_auth_header;
         Call_verify_decode_jwt "good.token.sig";
         Net_urlopen "https://tenant.auth0.com/.well-known/jwks.json";
         Call_check_permissions "get:students" Sample.claims;
         Call_f "good.token.sig"]).
Proof.
  split; [|split; [|split]].
  - apply (proj1 (requires_auth_stages
                    Sample.cfg Sample.lib
                    (SampleRuns.with_header "Basic dXNlcg==")
                    (Some "get:students") unit string SampleRuns.echo tt)).
    reflexivity.
  - apply (proj1 (proj2 (requires_auth_stages
                    Sample.cfg Sample.lib
                    (SampleRuns.with_header "Bearer old.token.sig")
                    (Some "get:students") unit string SampleRuns.echo tt))
             "old.token.sig");
      reflexivity.
  - apply (proj1 (proj2 (proj2 (requires_auth_stages
                    Sample.cfg Sample.lib
                    (SampleRuns.with_header "Bearer good.token.sig")
                    (Some "post:students") unit string SampleRuns.echo tt)))
             "good.token.sig" Sample.claims);
      reflexivity.
  - apply (proj2 (proj2 (proj2 (requires_auth_stages
                    Sample.cfg Sample.lib
                    (SampleRuns.with_header "bearer good.token.sig")
                    (Some "get:students") unit string SampleRuns.echo tt)))
             "good.token.sig" Sample.claims true);
      reflexivity.
Defined.

(** * Further properties of the module *)

(** ** Splitting a header *)

Lemma list_ascii_of_string_app (a b : string) :
  list_ascii_of_string (a ++ b)%string
  = list_ascii_of_string a ++ list_ascii_of_string b.
Proof.
  induction a as [|c a IH]; simpl; [reflexivity | now rewrite IH].
Qed.

Lemma string_app_assoc (a b c : string) :
  ((a ++ b) ++ c)%string = (a ++ b ++ c)%string.
Proof.
  induction a as [|x a IH]; simpl; [reflexivity | now rewrite IH].
Qed.

Lemma string_app_nil_r (a : string) : (a ++ "")%string = a.
Proof.
  induction a as [|x a IH]; simpl; [reflexivity | now rewrite IH].
Qed.

Lemma string_app_not_nil (a : string) (c : ascii) :
  (a ++ String c "")%string <> "".
Proof. now destruct a. Qed.

(** Whitespace before a segment starts is skipped. *)
Lemma split_from_skip (w s : string) :
  PyStr.all_space w = true ->
  PyStr.split_from "" (w ++ s) = PyStr.split_from "" s.
Proof.
  unfold PyStr.all_space.
  induction w as [|c w IH]; simpl; intros H; [reflexivity|].
  apply andb_true_iff in H as [Hc Hw]. rewrite Hc. auto.
Qed.

(** A segment is read up to the next whitespace character. *)
Lemma split_from_word (w cur s : string) :
  no_space w = true ->
  PyStr.split_from cur (w ++ s) = PyStr.split_from (cur ++ w) s.
Proof.
  unfold no_space. revert cur.
  induction w as [|c w IH]; simpl; intros cur H.
  - now rewrite string_app_nil_r.
  - apply andb_true_iff in H as [Hc Hw].
    apply negb_true_iff in Hc. rewrite Hc.
    rewrite (IH _ Hw), string_app_assoc. reflexivity.
Qed.

(** Whitespace after a segment closes it. *)
Lemma split_from_close (w cur s : string) :
  cur <> "" -> w <> "" -> PyStr.all_space w = true ->
  PyStr.split_from cur (w ++ s) = cur :: PyStr.split_from "" s.
Proof.
  intros Hcur Hw Hsp. destruct w as [|c w]; [now elim Hw|].
  unfold PyStr.all_space in Hsp. simpl in Hsp.
  apply andb_true_iff in Hsp as [Hc Hrest].
  simpl. rewrite Hc. apply String.eqb_neq in Hcur. rewrite Hcur.
  f_equal. now apply split_from_skip.
Qed.

Lemma split_from_end (w cur : string) :
  cur <> "" -> PyStr.all_space w = true -> PyStr.split_from cur w = [cur].
Proof.
  intros Hcur Hsp. destruct w as [|c w].
  - simpl. apply String.eqb_neq in Hcur. now rewrite Hcur.
  - rewrite <- (string_app_nil_r (String c w)).
    rewrite split_from_close; [reflexivity | assumption | discriminate | assumption].
Qed.

(** Two words between runs of whitespace split into the two words. *)
Lemma split_two_words (w1 a w2 b w3 : string) :
  a <> "" -> no_space a = true ->
  b <> "" -> no_space b = true ->
  PyStr.all_space w1 = true ->
  w2 <> "" -> PyStr.all_space w2 = true ->
  PyStr.all_space w3 = true ->
  PyStr.split (w1 ++ a ++ w2 ++ b ++ w3) = [a; b].
Proof.
  intros Ha Hna Hb Hnb H1 Hw2 H2 H3. unfold PyStr.split.
  rewrite (split_from_skip w1 _ H1).
  rewrite (split_from_word a "" _ Hna). simpl append.
  rewrite (split_from_close w2 a _ Ha Hw2 H2).
  rewrite (split_from_word b "" _ Hnb). simpl append.
  now rewrite (split_from_end w3 b Hb H3).
Qed.

(** Every segment [split] yields is non-empty and free of whitespace. *)
Lemma split_from_segments (s cur : string) :
  no_space cur = true ->
  Forall (fun seg => seg <> "" /\ no_space seg = true) (PyStr.split_from cur s).
Proof.
  revert cur. induction s as [|c s IH]; simpl; intros cur Hcur.
  - destruct (String.eqb_spec cur ""); repeat constructor; assumption.
  - destruct (PyStr.isspace c) eqn:Hc.
    + destruct (String.eqb_spec cur "").
      * now apply IH.
      * constructor; [split; assumption|]. now apply IH.
    + apply IH. unfold no_space in *.
      rewrite list_ascii_of_string_app, forallb_app, Hcur. simpl.
      now rewrite Hc.
Qed.

(** No character that [lower] sends to a letter is whitespace. *)
Lemma isspace_lower_char (c : ascii) :
  PyStr.isspace (PyStr.lower_char c) = false -> PyStr.isspace c = false.
Proof.
  destruct c as [[] [] [] [] [] [] [] []]; vm_compute; intros H;
    first [reflexivity | discriminate H].
Qed.

Lemma no_space_lower (s : string) :
  no_space (PyStr.lower s) = true -> no_space s = true.
Proof.
  unfold no_space. induction s as [|c s IH]; simpl; [reflexivity|].
  rewrite !andb_true_iff, !negb_true_iff. intros [Hc Hs].
  split; [now apply isspace_lower_char | now apply IH].
Qed.

Lemma lower_bearer_shape (p0 : string) :
  PyStr.lower p0 = "bearer" -> p0 <> "" /\ no_space p0 = true.
Proof.
  intros H. split.
  - intros ->. discriminate H.
  - apply no_space_lower. now rewrite H.
Qed.

(** ** The token extractor, case by case *)

(** The result of the extractor on a present, non-empty header, read
    off the segments. *)
Lemma get_token_auth_header_by_parts (s : string) (t : trace) :
  s <> "" ->
  fst (get_token_auth_header {| Authorization := Some s |} t)
  = match PyStr.split s with
    | [] => inl IndexError
    | p0 :: rest =>
        if negb (String.eqb (PyStr.lower p0) "bearer") then
          inl (header_error
                 ("Authorization header must start with "
                  ++ dquote ++ "Bearer" ++ dquote ++ ".")%string)
        else
          match rest with
          | [] => inl (header_error "Token not found.")
          | [token] => inr token
          | _ :: _ :: _ =>
              inl (header_error "Authorization header must be bearer token.")
          end
    end.
Proof.
  intros Hs. apply String.eqb_neq in Hs.
  unfold get_token_auth_header, header_error. unfold_monad. simpl.
  rewrite Hs. simpl.
  destruct (PyStr.split s) as [|p0 [|p1 [|p2 rest]]]; simpl;
    try reflexivity;
    destruct (String.eqb (PyStr.lower p0) "bearer"); reflexivity.
Qed.

Lemma split_cons_not_empty (s p0 : string) (rest : list string) :
  PyStr.split s = p0 :: rest -> s <> "".
Proof. intros H ->. discriminate H. Qed.

Lemma get_token_auth_header_inr (s token : string) (t : trace) :
  fst (get_token_auth_header {| Authorization := Some s |} t) = inr token ->
  exists p0, PyStr.split s = [p0; token] /\ PyStr.lower p0 = "bearer".
Proof.
  destruct (String.eqb_spec s "") as [->|Hs]; [discriminate|].
  rewrite (get_token_auth_header_by_parts s t Hs).
  destruct (PyStr.split s) as [|p0 [|p1 [|p2 rest]]]; try discriminate;
    destruct (String.eqb_spec (PyStr.lower p0) "bearer") as [Hb|Hb];
    simpl; try discriminate.
  intros H. injection H as ->. eauto.
Qed.

(** X1: a header made of a scheme that is "bearer" in any letter case
    and a token without whitespace, separated by any non-empty run of
    whitespace and with any whitespace around them, yields exactly that
    token. *)
Theorem get_token_auth_header_accepts (w1 scheme w2 token w3 : string)
    (t : trace) :
  PyStr.lower scheme = "bearer" ->
  token <> "" -> no_space token = true ->
  PyStr.all_space w1 = true ->
  w2 <> "" -> PyStr.all_space w2 = true ->
  PyStr.all_space w3 = true ->
  get_token_auth_header
    {| Authorization := Some (w1 ++ scheme ++ w2 ++ token ++ w3)%string |} t
  = (inr token, t ++ [Call_get_token_auth_header]).
Proof.
  intros Hlow Htok Hns H1 Hw2 H2 H3.
  destruct (lower_bearer_shape scheme Hlow) as [Hsch Hnsch].
  apply (get_token_auth_header_bearer _ scheme); [|assumption].
  now apply split_two_words.
Qed.

(** "BEARER" in capitals, a tab and a space before the token, spaces
    around. *)
Lemma get_token_auth_header_accepts_witness :
  get_token_auth_header
    {| Authorization :=
         Some (" " ++ "BEARER" ++ String (ascii_of_nat 9) " "
               ++ "good.token.sig" ++ "  ")%string |} []
  = (inr "good.token.sig", [Call_get_token_auth_header]).
Proof.
  apply (get_token_auth_header_accepts
           " " "BEARER" (String (ascii_of_nat 9) " ") "good.token.sig" "  " []);
    first [reflexivity | discriminate].
Defined.

(** X2: on a present header the extractor returns a token exactly when
    the header has two segments and the first is "bearer" in lower
    case; the token is then the second segment. *)
Theorem get_token_auth_header_returns_iff (s token : string) (t : trace) :
  fst (get_token_auth_header {| Authorization := Some s |} t) = inr token
  <-> exists p0, PyStr.split s = [p0; token] /\ PyStr.lower p0 = "bearer".
Proof.
  split.
  - apply get_token_auth_header_inr.
  - intros [p0 [Hsplit Hlow]].
    now rewrite (get_token_auth_header_bearer s p0 token t Hsplit Hlow).
Qed.

(** X3: a token the extractor returns is never empty and holds no
    whitespace character. *)
Theorem get_token_auth_header_token_shape (req : request) (token : string)
    (t : trace) :
  fst (get_token_auth_header req t) = inr token ->
  token <> "" /\ no_space token = true.
Proof.
  destruct req as [[s|]]; [|discriminate].
  intros H. apply get_token_auth_header_inr in H as [p0 [Hsplit _]].
  pose proof (split_from_segments s "" eq_refl) as Hall.
  fold (PyStr.split s) in Hall. rewrite Hsplit in Hall.
  inversion Hall as [|? ? _ Hrest]; subst.
  now inversion Hrest.
Qed.

Lemma get_token_auth_header_token_shape_witness :
  "abc.def.ghi" <> "" /\ no_space "abc.def.ghi" = true.
Proof.
  apply (get_token_auth_header_token_shape
           {| Authorization := Some "Bearer abc.def.ghi" |} "abc.def.ghi" []).
  reflexivity.
Defined.

(** X4: which failure a malformed header gets.  A first segment that is
    not "bearer" is reported first, whatever the number of segments;
    a lone "bearer" is "Token not found."; three or more segments are
    "Authorization header must be bearer token.". *)
Theorem get_token_auth_header_rejects (s p0 : string) (rest : list string)
    (t : trace) :
  PyStr.split s = p0 :: rest ->
  (PyStr.lower p0 <> "bearer" ->
   fst (get_token_auth_header {| Authorization := Some s |} t)
   = inl (header_error
            ("Authorization header must start with "
             ++ dquote ++ "Bearer" ++ dquote ++ ".")%string))
  /\ (PyStr.lower p0 = "bearer" -> rest = [] ->
      fst (get_token_auth_header {| Authorization := Some s |} t)
      = inl (header_error "Token not found."))
  /\ (PyStr.lower p0 = "bearer" -> 2 <= length rest ->
      fst (get_token_auth_header {| Authorization := Some s |} t)
      = inl (header_error "Authorization header must be bearer token.")).
Proof.
  intros Hsplit.
  rewrite (get_token_auth_header_by_parts s t (split_cons_not_empty _ _ _ Hsplit)).
  rewrite Hsplit. repeat split.
  - intros Hb. apply String.eqb_neq in Hb. now rewrite Hb.
  - intros Hb ->. now rewrite Hb.
  - intros Hb Hlen. rewrite Hb. simpl.
    destruct rest as [|p1 [|p2 rest]]; simpl in Hlen;
      [inversion Hlen | inversion Hlen as [|? Hle]; inversion Hle | reflexivity].
Qed.

Lemma get_token_auth_header_rejects_witness :
  fst (get_token_auth_header
         {| Authorization := Some "Basic dXNlcg== extra" |} [])
  = inl (header_error
           ("Authorization header must start with "
            ++ dquote ++ "Bearer" ++ dquote ++ ".")%string)
  /\ fst (get_token_auth_header {| Authorization := Some "Bearer" |} [])
     = inl (header_error "Token not found.")
  /\ fst (get_token_auth_header
            {| Authorization := Some "Bearer abc.def.ghi extra" |} [])
     = inl (header_error "Authorization header must be bearer token.").
Proof.
  split; [|split].
  - apply (proj1 (get_token_auth_header_rejects
                    "Basic dXNlcg== extra" "Basic" ["dXNlcg=="; "extra"] []
                    eq_refl)).
    discriminate.
  - apply (proj1 (proj2 (get_token_auth_header_rejects
                    "Bearer" "Bearer" [] [] eq_refl)));
      reflexivity.
  - apply (proj2 (proj2 (get_token_auth_header_rejects
                    "Bearer abc.def.ghi extra" "Bearer"
                    ["abc.def.ghi"; "extra"] [] eq_refl)));
      [reflexivity | apply le_n].
Defined.

(** X5: the extractor ends in one of four ways: a token, the
    missing-header error, a 401 [invalid_header] error, or
    [IndexError]; the missing-header error is the one for an absent or
    empty header, and [IndexError] the one for a non-empty header of
    whitespace only. *)
Theorem get_token_auth_header_outcomes (req : request) (t : trace) :
  ((exists token, fst (get_token_auth_header req t) = inr token)
   \/ fst (get_token_auth_header req t) = inl header_missing
   \/ (exists d, fst (get_token_auth_header req t) = inl (header_error d))
   \/ fst (get_token_auth_header req t) = inl IndexError)
  /\ (fst (get_token_auth_header req t) = inl header_missing
      <-> PyStr.truthy (Authorization req) = false)
  /\ (fst (get_token_auth_header req t) = inl IndexError
      <-> exists s, Authorization req = Some s /\ s <> ""
                    /\ PyStr.all_space s = true).
Proof.
  destruct req as [[s|]].
  - destruct (String.eqb_spec s "") as [->|Hs].
    + split; [right; left; reflexivity|]. split.
      * split; reflexivity.
      * split; [discriminate|]. intros (s & Heq & Hne & _).
        injection Heq as <-. now elim Hne.
    + rewrite (get_token_auth_header_by_parts s t Hs). simpl.
      pose proof (split_nil_iff s) as Hnil.
      pose proof (proj2 (String.eqb_neq s "") Hs) as Hsb.
      destruct (PyStr.split s) as [|p0 rest].
      * split; [now repeat right|]. split.
        -- rewrite Hsb. split; discriminate.
        -- split; [|reflexivity]. intros _. exists s. tauto.
      * assert (Hno : PyStr.all_space s = true -> False).
        { intros Hsp. apply Hnil in Hsp. discriminate Hsp. }
        split; [|split].
        -- destruct (negb (String.eqb (PyStr.lower p0) "bearer"));
             [right; right; left; eauto|].
           destruct rest as [|p1 [|p2 rest]];
             [right; right; left; eauto | left; eauto
             | right; right; left; eauto].
        -- rewrite Hsb. split; [|discriminate].
           destruct (negb (String.eqb (PyStr.lower p0) "bearer"));
             [discriminate|].
           destruct rest as [|p1 [|p2 rest]]; discriminate.
        -- split.
           ++ destruct (negb (String.eqb (PyStr.lower p0) "bearer"));
                [discriminate|].
              destruct rest as [|p1 [|p2 rest]]; discriminate.
           ++ intros (s' & Heq & _ & Hsp). injection Heq as <-.
              now elim Hno.
  - split; [right; left; reflexivity|]. split.
    + split; reflexivity.
    + split; [discriminate|]. intros (s & Heq & _). discriminate Heq.
Qed.

(** ** The permission checker on other claim values *)

Lemma substring_at (a p b : string) :
  substring (String.length a) (String.length p) (a ++ p ++ b) = p.
Proof.
  induction a as [|c a IH]; simpl; [|exact IH].
  induction p as [|c p IHp]; simpl.
  - now destruct b.
  - now rewrite IHp.
Qed.

Lemma substring_prefix (p s : string) :
  substring 0 (String.length p) s = p -> exists b, s = (p ++ b)%string.
Proof.
  revert s. induction p as [|c p IH]; intros s H.
  - exists s. reflexivity.
  - destruct s as [|c' s]; simpl in H; [discriminate H|].
    injection H as -> H. apply IH in H as [b ->].
    exists b. reflexivity.
Qed.

Lemma substring_found (m : nat) (p s : string) :
  substring m (String.length p) s = p ->
  exists a b, s = (a ++ p ++ b)%string.
Proof.
  revert s. induction m as [|m IH]; intros s H.
  - apply substring_prefix in H as [b ->]. exists "", b. reflexivity.
  - destruct s as [|c s]; simpl in H.
    + subst p. exists "", "". reflexivity.
    + apply IH in H as (a & b & ->). exists (String c a), b. reflexivity.
Qed.

(** [needle in haystack] holds exactly when the needle occurs in the
    haystack. *)
Lemma contains_iff (s p : string) :
  PyStr.contains s p = true <-> exists a b, s = (a ++ p ++ b)%string.
Proof.
  unfold PyStr.contains. split.
  - destruct (index 0 p s) as [m|] eqn:Hidx; [|discriminate].
    intros _. apply index_correct1 in Hidx. now apply substring_found in Hidx.
  - intros (a & b & ->).
    destruct (index 0 p (a ++ p ++ b)) as [m|] eqn:Hidx; [reflexivity|].
    exfalso. destruct p as [|c p].
    + apply index_correct4 in Hidx. inversion Hidx.
    + apply (index_correct3 0 (String.length a) _ _ Hidx);
        [discriminate | apply Nat.le_0_l | apply substring_at].
Qed.

(** X6: a [permissions] claim that is [null], a boolean or a number is
    not iterable: the membership test raises [TypeError], which is not
    an [AuthError]. *)
Theorem check_permissions_not_iterable (permission : string) (payload : dict)
    (v : json) (t : trace) :
  dict_get payload "permissions" = Some v ->
  v = JNull \/ (exists b, v = JBool b) \/ (exists z, v = JNum z) ->
  check_permissions permission payload t
  = (inl TypeError, t ++ [Call_check_permissions permission payload]).
Proof.
  intros Hget Hv.
  rewrite check_permissions_frame. f_equal.
  unfold check_permissions, dict_has, getitem_dict. unfold_monad.
  rewrite Hget. simpl.
  destruct Hv as [->|[[b ->]|[z ->]]]; reflexivity.
Qed.

Lemma check_permissions_not_iterable_witness :
  check_permissions "get:students" [("permissions", JNull)] []
  = (inl TypeError,
     [Call_check_permissions "get:students" [("permissions", JNull)]]).
Proof.
  apply (check_permissions_not_iterable
           "get:students" [("permissions", JNull)] JNull [] eq_refl).
  left. reflexivity.
Defined.

(** X7: when the [permissions] claim is a single string, [in] is the
    substring test: the check passes exactly when the required
    permission occurs somewhere in that string, so the empty
    requirement always passes. *)
Theorem check_permissions_string_claim (permission s : string)
    (payload : dict) (t : trace) :
  dict_get payload "permissions" = Some (JStr s) ->
  ((exists a b, s = (a ++ permission ++ b)%string) ->
   fst (check_permissions permission payload t) = inr true)
  /\ (~ (exists a b, s = (a ++ permission ++ b)%string) ->
      fst (check_permissions permission payload t)
      = inl (AuthError
               (mk_error 403 "unauthorized" "Permission not found.") 403))
  /\ (permission = "" ->
      fst (check_permissions permission payload t) = inr true).
Proof.
  intros Hget.
  assert (Hrun : fst (check_permissions permission payload t)
                 = if PyStr.contains s permission then inr true
                   else inl (AuthError
                               (mk_error 403 "unauthorized"
                                         "Permission not found.") 403)).
  { unfold check_permissions, dict_has, getitem_dict. unfold_monad.
    rewrite Hget. simpl. now destruct (PyStr.contains s permission). }
  rewrite Hrun. pose proof (contains_iff s permission) as Hiff.
  destruct (PyStr.contains s permission); repeat split.
  - intros H. elim H. now apply Hiff.
  - intros [a [b Hs]]. assert (false = true) by (apply Hiff; eauto).
    discriminate.
  - intros ->. assert (false = true) by (apply Hiff; exists "", s; reflexivity).
    discriminate.
Qed.

Lemma check_permissions_string_claim_witness :
  fst (check_permissions "get:students"
         [("permissions", JStr "get:students-archive")] [])
  = inr true
  /\ fst (check_permissions ""
            [("permissions", JStr "get:students-archive")] [])
     = inr true.
Proof.
  split.
  - apply (proj1 (check_permissions_string_claim
                    "get:students" "get:students-archive"
                    [("permissions", JStr "get:students-archive")] []
                    eq_refl)).
    exists "", "-archive". reflexivity.
  - apply (proj2 (proj2 (check_permissions_string_claim
                    "" "get:students-archive"
                    [("permissions", JStr "get:students-archive")] []
                    eq_refl))).
    reflexivity.
Defined.

(** X8: [check_permissions] returns [True] or raises; it never returns
    [False], and what it raises is the 400 [invalid_claims] error, the
    403 [unauthorized] error or a [TypeError]. *)
Theorem check_permissions_outcomes (permission : string) (payload : dict)
    (t : trace) :
  fst (check_permissions permission payload t) = inr true
  \/ fst (check_permissions permission payload t)
     = inl (AuthError
              (mk_error 400 "invalid_claims" "Permissions not included in JWT.")
              400)
  \/ fst (check_permissions permission payload t)
     = inl (AuthError (mk_error 403 "unauthorized" "Permission not found.") 403)
  \/ fst (check_permissions permission payload t) = inl TypeError.
Proof.
  unfold check_permissions, dict_has, getitem_dict. unfold_monad. simpl.
  destruct (dict_get payload "permissions") as [v|]; simpl; [|auto].
  destruct (py_in permission v) as [ex|[|]] eqn:Hin; simpl; auto.
  destruct v; simpl in Hin; try discriminate Hin; injection Hin as <-; auto.
Qed.

(** ** The verifier before the key lookup *)

(** X9: a failure of the key-set fetch is not converted: when
    [urlopen] raises, or [json.loads] rejects the body, that exception
    leaves [verify_decode_jwt] as it is, for every token. *)
Theorem verify_decode_jwt_fetch_failure (cfg : config) (lib : library)
    (token : string) (t : trace) :
  (urlopen_read lib (jwks_url cfg) = None ->
   verify_decode_jwt cfg lib token t
   = (inl URLError,
      t ++ [Call_verify_decode_jwt token; Net_urlopen (jwks_url cfg)]))
  /\ (forall body,
        urlopen_read lib (jwks_url cfg) = Some body ->
        json_loads lib body = None ->
        verify_decode_jwt cfg lib token t
        = (inl JSONDecodeError,
           t ++ [Call_verify_decode_jwt token; Net_urlopen (jwks_url cfg)])).
Proof.
  split.
  - intros Hurl. rewrite verify_decode_jwt_frame. f_equal.
    unfold verify_decode_jwt. unfold_monad. cbn [fst snd].
    now rewrite Hurl.
  - intros body Hurl Hjson. rewrite verify_decode_jwt_frame. f_equal.
    unfold verify_decode_jwt. unfold_monad. cbn [fst snd].
    now rewrite Hurl, Hjson.
Qed.

(** A deployment whose configured domain does not resolve. *)
Lemma verify_decode_jwt_fetch_failure_witness :
  verify_decode_jwt
    {| AUTH0_DOMAIN := Some "gone.example"; ALGORITHMS := Some "RS256";
       API_AUDIENCE := Some "classes" |}
    Sample.lib "good.token.sig" []
  = (inl URLError,
     [Call_verify_decode_jwt "good.token.sig";
      Net_urlopen "https://gone.example/.well-known/jwks.json"]).
Proof.
  apply (proj1 (verify_decode_jwt_fetch_failure
                  {| AUTH0_DOMAIN := Some "gone.example";
                     ALGORITHMS := Some "RS256";
                     API_AUDIENCE := Some "classes" |}
                  Sample.lib "good.token.sig" [])).
  reflexivity.
Defined.

(** X10: every call of [verify_decode_jwt] fetches the key set once,
    from [https://{AUTH0_DOMAIN}/.well-known/jwks.json], before it
    looks at the token and whatever the call ends in; nothing is kept
    from an earlier call. *)
Theorem verify_decode_jwt_one_fetch (cfg : config) (lib : library)
    (token : string) (t : trace) :
  snd (verify_decode_jwt cfg lib token t)
  = t ++ [Call_verify_decode_jwt token;
          Net_urlopen
            ("https://" ++ format_opt (AUTH0_DOMAIN cfg)
             ++ "/.well-known/jwks.json")%string]
  /\ (forall token',
        snd (bind (try_except (verify_decode_jwt cfg lib token)
                              (fun _ => ret []))
                  (fun _ => verify_decode_jwt cfg lib token') t)
        = t ++ [Call_verify_decode_jwt token; Net_urlopen (jwks_url cfg);
                Call_verify_decode_jwt token'; Net_urlopen (jwks_url cfg)]).
Proof.
  split.
  - now rewrite verify_decode_jwt_frame.
  - intros token'. unfold bind, try_except, ret.
    rewrite verify_decode_jwt_frame.
    destruct (fst (verify_decode_jwt cfg lib token [])); simpl;
      rewrite verify_decode_jwt_frame; simpl;
      now rewrite <- app_assoc.
Qed.

(** X11: a token header without [kid] is rejected with [AuthError]
    401 [invalid_header] "Authorization malformed." before the fetched
    document is looked into, whatever that document holds. *)
Theorem verify_decode_jwt_missing_kid (cfg : config) (lib : library)
    (token body : string) (jwks : json) (hdr : dict) (t : trace) :
  urlopen_read lib (jwks_url cfg) = Some body ->
  json_loads lib body = Some jwks ->
  jwt_get_unverified_header lib token = Some hdr ->
  dict_get hdr "kid" = None ->
  verify_decode_jwt cfg lib token t
  = (inl (AuthError
            (mk_error 401 "invalid_header" "Authorization malformed.") 401),
     t ++ [Call_verify_decode_jwt token; Net_urlopen (jwks_url cfg)]).
Proof.
  intros Hurl Hjson Hhdr Hkid.
  rewrite verify_decode_jwt_frame. f_equal.
  unfold verify_decode_jwt, dict_has. unfold_monad. cbn [fst snd].
  now rewrite Hurl, Hjson, Hhdr, Hkid.
Qed.

Lemma verify_decode_jwt_missing_kid_witness :
  verify_decode_jwt Sample.cfg
    {| urlopen_read := fun _ => Some "jwks.json";
       json_loads := fun _ => Some JNull;
       jwt_get_unverified_header := fun _ =>
         Some [("alg", JStr "RS256"); ("typ", JStr "JWT")];
       jwt_decode := fun _ _ _ _ _ => inl JWTError |}
    "abc.def.ghi" []
  = (inl (AuthError
            (mk_error 401 "invalid_header" "Authorization malformed.") 401),
     [Call_verify_decode_jwt "abc.def.ghi";
      Net_urlopen "https://tenant.auth0.com/.well-known/jwks.json"]).
Proof.
  apply (verify_decode_jwt_missing_kid
           Sample.cfg
           {| urlopen_read := fun _ => Some "jwks.json";
              json_loads := fun _ => Some JNull;
              jwt_get_unverified_header := fun _ =>
                Some [("alg", JStr "RS256"); ("typ", JStr "JWT")];
              jwt_decode := fun _ _ _ _ _ => inl JWTError |}
           "abc.def.ghi" "jwks.json" JNull
           [("alg", JStr "RS256"); ("typ", JStr "JWT")] []
           eq_refl eq_refl eq_refl eq_refl).
Defined.

(** X12: a fetched document that is a JSON object without a [keys]
    entry makes [jwks['keys']] raise [KeyError]; a document that is not
    an object makes it raise [TypeError].  Neither is an [AuthError]. *)
Theorem verify_decode_jwt_document_without_keys (cfg : config)
    (lib : library) (token body : string) (jwks hk : json) (hdr : dict)
    (t : trace) :
  urlopen_read lib (jwks_url cfg) = Some body ->
  json_loads lib body = Some jwks ->
  jwt_get_unverified_header lib token = Some hdr ->
  dict_get hdr "kid" = Some hk ->
  (forall d, jwks = JObj d -> dict_get d "keys" = None ->
             fst (verify_decode_jwt cfg lib token t) = inl (KeyError "keys"))
  /\ ((forall d, jwks <> JObj d) ->
      fst (verify_decode_jwt cfg lib token t) = inl TypeError).
Proof.
  intros Hurl Hjson Hhdr Hkid.
  assert (Hrun : forall ex, py_getitem jwks "keys" = inl ex ->
                            fst (verify_decode_jwt cfg lib token t) = inl ex).
  { intros ex Hex.
    unfold verify_decode_jwt, dict_has. unfold_monad. cbn [fst snd].
    now rewrite Hurl, Hjson, Hhdr, Hkid, Hex. }
  split.
  - intros d -> Hd. apply Hrun. unfold py_getitem, getitem_dict.
    now rewrite Hd.
  - intros Hno. apply Hrun. destruct jwks; try reflexivity.
    now elim (Hno d).
Qed.

Lemma verify_decode_jwt_document_without_keys_witness :
  fst (verify_decode_jwt Sample.cfg
         {| urlopen_read := fun _ => Some "{}";
            json_loads := fun _ => Some (JObj []);
            jwt_get_unverified_header := fun _ => Some (Sample.header "key-1");
            jwt_decode := fun _ _ _ _ _ => inl JWTError |}
         "abc.def.ghi" [])
  = inl (KeyError "keys").
Proof.
  apply (proj1 (verify_decode_jwt_document_without_keys
                  Sample.cfg
                  {| urlopen_read := fun _ => Some "{}";
                     json_loads := fun _ => Some (JObj []);
                     jwt_get_unverified_header := fun _ =>
                       Some (Sample.header "key-1");
                     jwt_decode := fun _ _ _ _ _ => inl JWTError |}
                  "abc.def.ghi" "{}" (JObj []) (JStr "key-1")
                  (Sample.header "key-1") []
                  eq_refl eq_refl eq_refl eq_refl)
           [] eq_refl eq_refl).
Defined.

(** ** The key lookup, further *)

(** Complete records never stop the loop. *)
Lemma key_loop_app_complete (pre rest : list json) (hdr : dict) (hk : json)
    (rsa_key : dict) :
  dict_get hdr "kid" = Some hk ->
  Forall (fun key => jwk_complete key = true) pre ->
  exists rsa_key',
    key_loop (pre ++ rest) hdr rsa_key = key_loop rest hdr rsa_key'.
Proof.
  intros Hhk Hc. revert rsa_key.
  induction Hc as [|key pre Hkey _ IH]; intros rsa_key.
  - exists rsa_key. reflexivity.
  - destruct (jwk_complete_fields key Hkey)
      as (kty & kid & use & n & e & _ & Hkid & _ & _ & _ & Hproj).
    destruct (kid_matches hk key) eqn:Hkm; simpl app.
    + rewrite (key_loop_take key _ hdr hk rsa_key _ Hhk Hkm Hproj). apply IH.
    + rewrite (key_loop_skip key _ hdr hk kid rsa_key Hhk Hkid); [apply IH|].
      unfold kid_matches in Hkm. now rewrite Hkid in Hkm.
Qed.

Lemma find_first_match (pre post : list json) (r hk : json) :
  Forall (fun key => kid_matches hk key = false) pre ->
  kid_matches hk r = true ->
  find (kid_matches hk) (pre ++ r :: post) = Some r.
Proof.
  intros Hpre Hr. induction Hpre as [|key pre Hkey _ IH]; simpl.
  - now rewrite Hr.
  - now rewrite Hkey.
Qed.

(** X13: when one record only carries the token's [kid], the lookup
    selects that record wherever it stands in the array; it is then
    also the first match, so reading first or last gives the same. *)
Theorem key_loop_unique_kid (pre post : list json) (r : json) (hdr : dict)
    (hk : json) (rsa_key : dict) :
  dict_get hdr "kid" = Some hk ->
  Forall (fun key => jwk_complete key = true) (pre ++ r :: post) ->
  Forall (fun key => kid_matches hk key = false) pre ->
  kid_matches hk r = true ->
  Forall (fun key => kid_matches hk key = false) post ->
  find (kid_matches hk) (pre ++ r :: post) = Some r
  /\ key_loop (pre ++ r :: post) hdr rsa_key = projection r.
Proof.
  intros Hhk Hc Hpre Hr Hpost. split.
  - now apply find_first_match.
  - assert (Hrc : jwk_complete r = true).
    { rewrite Forall_forall in Hc. apply Hc, in_elt. }
    destruct (jwk_complete_fields r Hrc)
      as (kty & kid & use & n & e & _ & _ & _ & _ & _ & Hproj).
    rewrite Hproj. now apply (key_loop_last_match pre post r hdr hk).
Qed.

Lemma key_loop_unique_kid_witness :
  find (kid_matches (JStr "key-2"))
       [Sample.jwk "key-1" "q83v"; Sample.jwk "key-2" "sXch"]
  = Some (Sample.jwk "key-2" "sXch")
  /\ key_loop [Sample.jwk "key-1" "q83v"; Sample.jwk "key-2" "sXch"]
       (Sample.header "key-2") []
     = projection (Sample.jwk "key-2" "sXch").
Proof.
  apply (key_loop_unique_kid
           [Sample.jwk "key-1" "q83v"] [] (Sample.jwk "key-2" "sXch")
           (Sample.header "key-2") (JStr "key-2") [] eq_refl).
  - repeat constructor.
  - repeat constructor.
  - reflexivity.
  - constructor.
Defined.

(** X14: a record without a [kid] stops the lookup with [KeyError],
    also when a record before it has already matched the token's
    [kid]: the loop reads [key['kid']] of every record of the array. *)
Theorem verify_decode_jwt_record_without_kid (cfg : config) (lib : library)
    (token body : string) (jwks hk : json) (hdr d : dict)
    (pre post : list json) (t : trace) :
  urlopen_read lib (jwks_url cfg) = Some body ->
  json_loads lib body = Some jwks ->
  jwt_get_unverified_header lib token = Some hdr ->
  dict_get hdr "kid" = Some hk ->
  py_getitem jwks "keys" = inr (JArr (pre ++ JObj d :: post)) ->
  Forall (fun key => jwk_complete key = true) pre ->
  dict_get d "kid" = None ->
  verify_decode_jwt cfg lib token t
  = (inl (KeyError "kid"),
     t ++ [Call_verify_decode_jwt token; Net_urlopen (jwks_url cfg)]).
Proof.
  intros Hurl Hjson Hhdr Hkid Hkeys Hpre Hd.
  rewrite verify_decode_jwt_frame. f_equal.
  run_verify Hurl Hjson Hhdr Hkid Hkeys.
  destruct (key_loop_app_complete pre (JObj d :: post) hdr hk [] Hkid Hpre)
    as [rk ->].
  simpl. unfold rbind, getitem_dict. now rewrite Hd.
Qed.

(** The key for the token is served, followed by a record that has no
    [kid]. *)
Lemma verify_decode_jwt_record_without_kid_witness :
  verify_decode_jwt Sample.cfg
    {| urlopen_read := fun _ => Some "jwks.json";
       json_loads := fun _ =>
         Some (JObj [("keys",
                      JArr [Sample.jwk "key-2" "sXch";
                            JObj [("kty", JStr "RSA"); ("n", JStr "q83v");
                                  ("e", JStr "AQAB")]])]);
       jwt_get_unverified_header := fun _ => Some (Sample.header "key-2");
       jwt_decode := fun _ _ _ _ _ => inr Sample.claims |}
    "good.token.sig" []
  = (inl (KeyError "kid"),
     [Call_verify_decode_jwt "good.token.sig";
      Net_urlopen "https://tenant.auth0.com/.well-known/jwks.json"]).
Proof.
  apply (verify_decode_jwt_record_without_kid
           Sample.cfg
           {| urlopen_read := fun _ => Some "jwks.json";
              json_loads := fun _ =>
                Some (JObj [("keys",
                             JArr [Sample.jwk "key-2" "sXch";
                                   JObj [("kty", JStr "RSA"); ("n", JStr "q83v");
                                         ("e", JStr "AQAB")]])]);
              jwt_get_unverified_header := fun _ =>
                Some (Sample.header "key-2");
              jwt_decode := fun _ _ _ _ _ => inr Sample.claims |}
           "good.token.sig" "jwks.json"
           (JObj [("keys",
                   JArr [Sample.jwk "key-2" "sXch";
                         JObj [("kty", JStr "RSA"); ("n", JStr "q83v");
                               ("e", JStr "AQAB")]])])
           (JStr "key-2") (Sample.header "key-2")
           [("kty", JStr "RSA"); ("n", JStr "q83v"); ("e", JStr "AQAB")]
           [Sample.jwk "key-2" "sXch"] [] []
           eq_refl eq_refl eq_refl eq_refl eq_refl);
    [repeat constructor | reflexivity].
Defined.

(** ** The verifier once a key is selected *)

Section WithSelectedKey.

Variable cfg : config.
Variable lib : library.
Variables token body : string.
Variables jwks hk r : json.
Variables hdr rk : dict.
Variables pre post : list json.

Hypothesis Hurl : urlopen_read lib (jwks_url cfg) = Some body.
Hypothesis Hjson : json_loads lib body = Some jwks.
Hypothesis Hhdr : jwt_get_unverified_header lib token = Some hdr.
Hypothesis Hkid : dict_get hdr "kid" = Some hk.
Hypothesis Hkeys : py_getitem jwks "keys" = inr (JArr (pre ++ r :: post)).
Hypothesis Hcomplete :
  Forall (fun key => jwk_complete key = true) (pre ++ r :: post).
Hypothesis Hmatch : kid_matches hk r = true.
Hypothesis Hpost : Forall (fun key => kid_matches hk key = false) post.
Hypothesis Hproj : projection r = inr rk.

(** With the key selected, the result is what the [try] block makes of
    the issuer expression and of [jwt.decode]. *)
Lemma verify_decode_jwt_with_key (t : trace) :
  fst (verify_decode_jwt cfg lib token t)
  = match
      (issuer <- issuer_of (AUTH0_DOMAIN cfg) ;;
       jwt_decode lib token rk (ALGORITHMS cfg) (API_AUDIENCE cfg) issuer)%res
    with
    | inr payload => inr payload
    | inl ExpiredSignatureError =>
        inl (AuthError (mk_error 401 "token_expired" "Token expired.") 401)
    | inl JWTClaimsError =>
        inl (AuthError
               (mk_error 401 "invalid_claims"
                  "Incorrect claims. Please, check the audience and issuer.")
               401)
    | inl _ =>
        inl (AuthError
               (mk_error 400 "invalid_header"
                  "Unable to parse authentication token.") 400)
    end.
Proof.
  run_verify Hurl Hjson Hhdr Hkid Hkeys.
  rewrite (key_loop_last_match pre post r hdr hk [] rk
             Hkid Hcomplete Hmatch Hpost Hproj).
  assert (Htruthy : dict_truthy rk = true).
  { destruct (jwk_complete_fields r) as (? & ? & ? & ? & ? & Hf).
    - rewrite Forall_forall in Hcomplete. apply Hcomplete, in_elt.
    - destruct Hf as (_ & _ & _ & _ & _ & Hf). rewrite Hproj in Hf.
      injection Hf as ->. reflexivity. }
  rewrite Htruthy.
  destruct (issuer_of (AUTH0_DOMAIN cfg)) as [ex|issuer]; simpl.
  - destruct ex; reflexivity.
  - destruct (jwt_decode lib token rk (ALGORITHMS cfg) (API_AUDIENCE cfg)
                issuer) as [ex|payload]; simpl; [|reflexivity].
    destruct ex; reflexivity.
Qed.

(** X15: a token that [jwt.decode] accepts, under the selected key,
    the configured algorithms and audience and the issuer
    [https://{AUTH0_DOMAIN}/], is answered with the claims that
    [jwt.decode] returned, unchanged. *)
Theorem verify_decode_jwt_returns_claims (d : string) (payload : dict)
    (t : trace) :
  AUTH0_DOMAIN cfg = Some d ->
  jwt_decode lib token rk (ALGORITHMS cfg) (API_AUDIENCE cfg)
    ("https://" ++ d ++ "/")%string = inr payload ->
  verify_decode_jwt cfg lib token t
  = (inr payload,
     t ++ [Call_verify_decode_jwt token; Net_urlopen (jwks_url cfg)]).
Proof.
  intros Hd Hdec. rewrite verify_decode_jwt_frame. f_equal.
  rewrite verify_decode_jwt_with_key, Hd. cbn [issuer_of rbind].
  now rewrite Hdec.
Qed.

(** X16: a claims mismatch reported by [jwt.decode] ([JWTClaimsError])
    becomes [AuthError] 401 [invalid_claims] "Incorrect claims. Please,
    check the audience and issuer.". *)
Theorem verify_decode_jwt_claims_mismatch (d : string) (t : trace) :
  AUTH0_DOMAIN cfg = Some d ->
  jwt_decode lib token rk (ALGORITHMS cfg) (API_AUDIENCE cfg)
    ("https://" ++ d ++ "/")%string = inl JWTClaimsError ->
  verify_decode_jwt cfg lib token t
  = (inl (AuthError
            (mk_error 401 "invalid_claims"
               "Incorrect claims. Please, check the audience and issuer.")
            401),
     t ++ [Call_verify_decode_jwt token; Net_urlopen (jwks_url cfg)]).
Proof.
  intros Hd Hdec. rewrite verify_decode_jwt_frame. f_equal.
  rewrite verify_decode_jwt_with_key, Hd. cbn [issuer_of rbind].
  now rewrite Hdec.
Qed.

(** X17: any other exception out of [jwt.decode], whatever its class,
    becomes [AuthError] 400 [invalid_header] "Unable to parse
    authentication token.". *)
Theorem verify_decode_jwt_other_failure (d : string) (ex : exn) (t : trace) :
  AUTH0_DOMAIN cfg = Some d ->
  jwt_decode lib token rk (ALGORITHMS cfg) (API_AUDIENCE cfg)
    ("https://" ++ d ++ "/")%string = inl ex ->
  ex <> ExpiredSignatureError ->
  ex <> JWTClaimsError ->
  verify_decode_jwt cfg lib token t
  = (inl (AuthError
            (mk_error 400 "invalid_header"
               "Unable to parse authentication token.") 400),
     t ++ [Call_verify_decode_jwt token; Net_urlopen (jwks_url cfg)]).
Proof.
  intros Hd Hdec Hne1 Hne2. rewrite verify_decode_jwt_frame. f_equal.
  rewrite verify_decode_jwt_with_key, Hd. cbn [issuer_of rbind].
  rewrite Hdec.
  destruct ex; try reflexivity; congruence.
Qed.

(** X18: with [AUTH0_DOMAIN] unset the issuer expression
    ['https://' + AUTH0_DOMAIN + '/'] raises inside the [try] block, so
    every token whose key is found is answered with [AuthError] 400
    [invalid_header] "Unable to parse authentication token.", whatever
    [jwt.decode] would say of it. *)
Theorem verify_decode_jwt_unset_domain (t : trace) :
  AUTH0_DOMAIN cfg = None ->
  verify_decode_jwt cfg lib token t
  = (inl (AuthError
            (mk_error 400 "invalid_header"
               "Unable to parse authentication token.") 400),
     t ++ [Call_verify_decode_jwt token; Net_urlopen (jwks_url cfg)]).
Proof.
  intros Hd. rewrite verify_decode_jwt_frame. f_equal.
  rewrite verify_decode_jwt_with_key, Hd. reflexivity.
Qed.

End WithSelectedKey.

Lemma verify_decode_jwt_returns_claims_witness :
  verify_decode_jwt Sample.cfg Sample.lib "good.token.sig" []
  = (inr Sample.claims,
     [Call_verify_decode_jwt "good.token.sig";
      Net_urlopen "https://tenant.auth0.com/.well-known/jwks.json"]).
Proof.
  apply (verify_decode_jwt_returns_claims
           Sample.cfg Sample.lib "good.token.sig" "jwks.json" Sample.jwks
           (JStr "key-2") (Sample.jwk "key-2" "sXch") (Sample.header "key-2")
           Fixture.rsa_key [Sample.jwk "key-1" "q83v"] []
           eq_refl eq_refl eq_refl eq_refl eq_refl
           ltac:(repeat constructor) eq_refl ltac:(constructor) eq_refl
           "tenant.auth0.com" Sample.claims [] eq_refl eq_refl).
Defined.

Lemma verify_decode_jwt_claims_mismatch_witness :
  verify_decode_jwt Sample.cfg
    (Fixture.lib (Some Sample.jwks) (Some (Sample.header "key-2"))
       (inl JWTClaimsError))
    "other.aud.sig" []
  = (inl (AuthError
            (mk_error 401 "invalid_claims"
               "Incorrect claims. Please, check the audience and issuer.")
            401),
     [Call_verify_decode_jwt "other.aud.sig";
      Net_urlopen "https://tenant.auth0.com/.well-known/jwks.json"]).
Proof.
  apply (verify_decode_jwt_claims_mismatch
           Sample.cfg
           (Fixture.lib (Some Sample.jwks) (Some (Sample.header "key-2"))
              (inl JWTClaimsError))
           "other.aud.sig" "jwks.json" Sample.jwks
           (JStr "key-2") (Sample.jwk "key-2" "sXch") (Sample.header "key-2")
           Fixture.rsa_key [Sample.jwk "key-1" "q83v"] []
           eq_refl eq_refl eq_refl eq_refl eq_refl
           ltac:(repeat constructor) eq_refl ltac:(constructor) eq_refl
           "tenant.auth0.com" [] eq_refl eq_refl).
Defined.

Lemma verify_decode_jwt_other_failure_witness :
  verify_decode_jwt Sample.cfg
    (Fixture.lib (Some Sample.jwks) (Some (Sample.header "key-2"))
       (inl TypeError))
    "bad.token.sig" []
  = (inl (AuthError
            (mk_error 400 "invalid_header"
               "Unable to parse authentication token.") 400),
     [Call_verify_decode_jwt "bad.token.sig";
      Net_urlopen "https://tenant.auth0.com/.well-known/jwks.json"]).
Proof.
  apply (verify_decode_jwt_other_failure
           Sample.cfg
           (Fixture.lib (Some Sample.jwks) (Some (Sample.header "key-2"))
              (inl TypeError))
           "bad.token.sig" "jwks.json" Sample.jwks
           (JStr "key-2") (Sample.jwk "key-2" "sXch") (Sample.header "key-2")
           Fixture.rsa_key [Sample.jwk "key-1" "q83v"] []
           eq_refl eq_refl eq_refl eq_refl eq_refl
           ltac:(repeat constructor) eq_refl ltac:(constructor) eq_refl
           "tenant.auth0.com" TypeError [] eq_refl eq_refl);
    discriminate.
Defined.

(** A token that [jwt.decode] would accept, in a process started
    without [AUTH0_DOMAIN]. *)
Lemma verify_decode_jwt_unset_domain_witness :
  verify_decode_jwt Fixture.unset
    (Fixture.lib (Some Sample.jwks) (Some (Sample.header "key-2"))
       (inr Sample.claims))
    "good.token.sig" []
  = (inl (AuthError
            (mk_error 400 "invalid_header"
               "Unable to parse authentication token.") 400),
     [Call_verify_decode_jwt "good.token.sig";
      Net_urlopen "https://None/.well-known/jwks.json"]).
Proof.
  apply (verify_decode_jwt_unset_domain
           Fixture.unset
           (Fixture.lib (Some Sample.jwks) (Some (Sample.header "key-2"))
              (inr Sample.claims))
           "good.token.sig" "jwks.json" Sample.jwks
           (JStr "key-2") (Sample.jwk "key-2" "sXch") (Sample.header "key-2")
           Fixture.rsa_key [Sample.jwk "key-1" "q83v"] []
           eq_refl eq_refl eq_refl eq_refl eq_refl
           ltac:(repeat constructor) eq_refl ltac:(constructor) eq_refl
           [] eq_refl).
Defined.

(** ** What the verifier can end in *)

Lemma key_loop_complete_total (keys : list json) (hdr : dict) (hk : json)
    (rsa_key : dict) :
  dict_get hdr "kid" = Some hk ->
  Forall (fun key => jwk_complete key = true) keys ->
  exists rsa_key', key_loop keys hdr rsa_key = inr rsa_key'.
Proof.
  intros Hhk Hc.
  destruct (key_loop_app_complete keys [] hdr hk rsa_key Hhk Hc) as [rk Hrk].
  rewrite app_nil_r in Hrk. exists rk. exact Hrk.
Qed.

(** X19: once the key set is fetched and parsed, the token header is
    readable and the records of the keys array are complete,
    [verify_decode_jwt] returns claims or raises one of its five
    [AuthError]s; no other exception leaves it. *)
Theorem verify_decode_jwt_closed_errors (cfg : config) (lib : library)
    (token body : string) (jwks : json) (hdr : dict) (keys : list json)
    (t : trace) :
  urlopen_read lib (jwks_url cfg) = Some body ->
  json_loads lib body = Some jwks ->
  jwt_get_unverified_header lib token = Some hdr ->
  py_getitem jwks "keys" = inr (JArr keys) ->
  Forall (fun key => jwk_complete key = true) keys ->
  (exists payload, fst (verify_decode_jwt cfg lib token t) = inr payload)
  \/ (exists ex, fst (verify_decode_jwt cfg lib token t) = inl ex
                 /\ In ex verifier_errors).
Proof.
  intros Hurl Hjson Hhdr Hkeys Hc.
  destruct (dict_get hdr "kid") as [hk|] eqn:Hkid.
  - destruct (key_loop_complete_total keys hdr hk [] Hkid Hc) as [rk Hrk].
    run_verify Hurl Hjson Hhdr Hkid Hkeys. rewrite Hrk.
    destruct (dict_truthy rk).
    + destruct (issuer_of (AUTH0_DOMAIN cfg)) as [ex|issuer].
      * right. destruct ex; eexists; (split; [reflexivity|]); simpl; auto 10.
      * destruct (jwt_decode lib token rk (ALGORITHMS cfg) (API_AUDIENCE cfg)
                    issuer) as [ex|payload].
        -- right.
           destruct ex; eexists; (split; [reflexivity|]); simpl; auto 10.
        -- left. eexists. reflexivity.
    + right. eexists. split; [reflexivity|]. simpl. auto.
  - right. eexists. split.
    + unfold verify_decode_jwt, dict_has. unfold_monad. cbn [fst snd].
      rewrite Hurl, Hjson, Hhdr, Hkid. reflexivity.
    + simpl. auto.
Qed.

Lemma verify_decode_jwt_closed_errors_witness :
  (exists payload,
      fst (verify_decode_jwt Sample.cfg Sample.lib "old.token.sig" [])
      = inr payload)
  \/ (exists ex,
         fst (verify_decode_jwt Sample.cfg Sample.lib "old.token.sig" [])
         = inl ex
         /\ In ex verifier_errors).
Proof.
  apply (verify_decode_jwt_closed_errors
           Sample.cfg Sample.lib "old.token.sig" "jwks.json" Sample.jwks
           (Sample.header "key-1")
           [Sample.jwk "key-1" "q83v"; Sample.jwk "key-2" "sXch"] []
           eq_refl eq_refl eq_refl eq_refl).
  repeat constructor.
Defined.

(** ** The errors the module raises *)

Lemma not_AuthError_well_formed (ex : exn) :
  is_AuthError ex = false -> well_formed_error ex.
Proof. destruct ex; simpl; [discriminate | trivial ..]. Qed.

Lemma py_getitem_raises (v : json) (k : string) (ex : exn) :
  py_getitem v k = inl ex -> is_AuthError ex = false.
Proof.
  unfold py_getitem, getitem_dict.
  destruct v; try (intros H; injection H as <-; reflexivity).
  destruct (dict_get d k); [discriminate|].
  intros H. injection H as <-. reflexivity.
Qed.

Lemma projection_raises (key : json) (ex : exn) :
  projection key = inl ex -> is_AuthError ex = false.
Proof.
  unfold projection, rbind.
  repeat match goal with
         | |- context [py_getitem key ?k] =>
             let H := fresh "H" in
             destruct (py_getitem key k) eqn:H;
             [intros E; injection E as <-;
              now apply py_getitem_raises in H|]
         end.
  discriminate.
Qed.

(** The loop lets out [KeyError] and [TypeError] only. *)
Lemma key_loop_raises (keys : list json) (hdr rsa_key : dict) (ex : exn) :
  key_loop keys hdr rsa_key = inl ex -> is_AuthError ex = false.
Proof.
  revert rsa_key. induction keys as [|key rest IH]; intros rsa_key; simpl.
  - discriminate.
  - unfold rbind, getitem_dict.
    destruct (py_getitem key "kid") as [e|kid] eqn:Hk.
    + intros H. injection H as <-. now apply py_getitem_raises in Hk.
    + destruct (dict_get hdr "kid") as [hk|].
      * destruct (py_eq kid hk).
        -- destruct (projection key) as [e|rk] eqn:Hp.
           ++ intros H. injection H as <-. now apply projection_raises in Hp.
           ++ apply IH.
        -- apply IH.
      * intros H. injection H as <-. reflexivity.
Qed.

(** X20: every [AuthError] that the extractor, the verifier or the
    permission checker raises carries its status code a second time
    under ['error'] of its dictionary, and that status is 400, 401 or
    403. *)
Theorem raised_errors_well_formed (cfg : config) (lib : library)
    (req : request) (token permission : string) (payload : dict)
    (t : trace) (ex : exn) :
  fst (get_token_auth_header req t) = inl ex
  \/ fst (verify_decode_jwt cfg lib token t) = inl ex
  \/ fst (check_permissions permission payload t) = inl ex ->
  well_formed_error ex.
Proof.
  intros [H|[H|H]].
  - revert H. unfold get_token_auth_header, getitem_list. unfold_monad.
    cbn [fst snd]. split_cases; cbn [fst]; intros H;
      first [discriminate H | injection H as <-; simpl; auto].
  - revert H. unfold verify_decode_jwt. unfold_monad. cbn [fst snd].
    split_cases; cbn [fst]; intros H;
      first [discriminate H | injection H as <-];
      try (simpl; now auto);
      apply not_AuthError_well_formed;
      repeat match goal with
             | E : py_getitem _ _ = inl _ |- _ =>
                 apply py_getitem_raises in E
             | E : key_loop _ _ _ = inl _ |- _ => apply key_loop_raises in E
             end;
      try assumption; try reflexivity.
    all: match goal with
         | E : py_iter ?v = inl _ |- _ =>
             destruct v; simpl in E; first [discriminate E | now injection E as <-]
         end.
  - revert H. unfold check_permissions, getitem_dict, dict_has. unfold_monad.
    cbn [fst snd]. split_cases; cbn [fst]; intros H;
      first [discriminate H | injection H as <-];
      try (simpl; now auto).
    all: match goal with
         | E : py_in _ ?v = inl _ |- _ =>
             destruct v; simpl in E; first [discriminate E | now injection E as <-]
         end.
Qed.

Lemma raised_errors_well_formed_witness :
  well_formed_error
    (AuthError (mk_error 403 "unauthorized" "Permission not found.") 403).
Proof.
  apply (raised_errors_well_formed
           Sample.cfg Sample.lib {| Authorization := None |}
           "good.token.sig" "post:students" Sample.claims []).
  right. right. reflexivity.
Defined.

(** ** The guard, end to end *)

(** X21: a request whose header is a bearer header, whose token
    [jwt.decode] accepts under the key selected for it, and whose
    claims list the required permission reaches the wrapped operation:
    the guard is then the operation itself, called with the token after
    the three stages. *)
Theorem requires_auth_accepts (cfg : config) (lib : library) (req : request)
    (permission : option string) (A R : Type) (f : string -> A -> M R)
    (args : A) (s p0 token body d : string) (jwks hk r : json)
    (hdr rk payload : dict) (pre post perms : list json) :
  Authorization req = Some s ->
  PyStr.split s = [p0; token] ->
  PyStr.lower p0 = "bearer" ->
  AUTH0_DOMAIN cfg = Some d ->
  urlopen_read lib (jwks_url cfg) = Some body ->
  json_loads lib body = Some jwks ->
  jwt_get_unverified_header lib token = Some hdr ->
  dict_get hdr "kid" = Some hk ->
  py_getitem jwks "keys" = inr (JArr (pre ++ r :: post)) ->
  Forall (fun key => jwk_complete key = true) (pre ++ r :: post) ->
  kid_matches hk r = true ->
  Forall (fun key => kid_matches hk key = false) post ->
  projection r = inr rk ->
  jwt_decode lib token rk (ALGORITHMS cfg) (API_AUDIENCE cfg)
    ("https://" ++ d ++ "/")%string = inr payload ->
  dict_get payload "permissions" = Some (JArr perms) ->
  In (JStr (or_default permission)) perms ->
  requires_auth cfg lib req permission f args []
  = f token args
      [Call_get_token_auth_header;
       Call_verify_decode_jwt token; Net_urlopen (jwks_url cfg);
       Call_check_permissions (or_default permission) payload;
       Call_f token].
Proof.
  intros Hauth Hsplit Hlow Hd Hurl Hjson Hhdr Hkid Hkeys Hc Hm Hpost Hproj
         Hdec Hperms Hin.
  unfold requires_auth, bind.
  destruct req as [auth]. simpl in Hauth. subst auth.
  rewrite (get_token_auth_header_bearer s p0 token [] Hsplit Hlow).
  rewrite verify_decode_jwt_frame.
  rewrite (verify_decode_jwt_with_key cfg lib token body jwks hk r hdr rk
             pre post Hurl Hjson Hhdr Hkid Hkeys Hc Hm Hpost Hproj).
  rewrite Hd. cbn [issuer_of rbind]. rewrite Hdec.
  rewrite check_permissions_frame.
  rewrite (check_permissions_member _ payload perms _ Hperms Hin).
  reflexivity.
Qed.

Lemma requires_auth_accepts_witness :
  SampleRuns.guard "Bearer good.token.sig" "get:students" []
  = (inr "good.token.sig",
     [Call_get_token_auth_header;
      Call_verify_decode_jwt "good.token.sig";
      Net_urlopen "https://tenant.auth0.com/.well-known/jwks.json";
      Call_check_permissions "get:students" Sample.claims;
      Call_f "good.token.sig"]).
Proof.
  apply (requires_auth_accepts
           Sample.cfg Sample.lib
           (SampleRuns.with_header "Bearer good.token.sig")
           (Some "get:students") unit string SampleRuns.echo tt
           "Bearer good.token.sig" "Bearer" "good.token.sig" "jwks.json"
           "tenant.auth0.com" Sample.jwks (JStr "key-2")
           (Sample.jwk "key-2" "sXch") (Sample.header "key-2")
           Fixture.rsa_key Sample.claims [Sample.jwk "key-1" "q83v"] []
           [JStr "get:students"]
           eq_refl eq_refl eq_refl eq_refl eq_refl eq_refl eq_refl eq_refl
           eq_refl ltac:(repeat constructor) eq_refl ltac:(constructor)
           eq_refl eq_refl eq_refl).
  simpl. left. reflexivity.
Defined.
